(** * ExtendedModelResource: nested resources on top of a REST resource layer

    A shallow embedding of [extendedmodelresource.py].  The module is glue
    code around a host framework (object-relational queries, bundles,
    authorization, cache, URL resolution): the methods of the class are
    embedded one by one, the host framework's methods they call are the
    fields of the record [Framework], and every call that leaves the
    module towards the query layer, the cache or the base class is written
    to a trace, so that what reaches the underlying call can be stated. *)

From Stdlib Require Import ZArith Ascii String List.
From stdpp Require Import base option strings gmap list.

Local Open Scope string_scope.
Set Warnings "-register-all".

(** ** Python values *)

(** A request is [None] (the default of [get_via_uri_no_auth_check]) or an
    HTTP request with its method and its [GET] query dictionary. *)
Inductive request : Type :=
  | NoRequest
  | HttpRequest (method : string) (GET : gmap string string).

(** The values that travel in keyword-argument dictionaries.  An object is
    its class name and its attributes (a model instance, a related manager,
    a query set); a resource is named; a bundle carries its [obj], its
    [data] and the request it was built for. *)
Inductive pyval : Type :=
  | VNone
  | VStr (s : string)
  | VInt (z : Z)
  | VDict (d : gmap string pyval)
  | VObject (cls : string) (attrs : gmap string pyval)
  | VBundle (obj : pyval) (data : gmap string pyval) (req : request)
  | VResource (name : string).

(** A Python [dict] with string keys: [**kwargs], a copy of [request.GET],
    filters. *)
Abbreviation dict := (gmap string pyval).

(** An evaluated object list ([len], indexing). *)
Abbreviation queryset := (list pyval).

Record bundle : Type := Bundle {
  b_obj : pyval;
  b_data : dict;
  b_request : request
}.

Definition bundle_val (b : bundle) : pyval :=
  VBundle (b_obj b) (b_data b) (b_request b).

(** [bundle.obj = o] *)
Definition set_obj (b : bundle) (o : pyval) : bundle :=
  Bundle o (b_data b) (b_request b).

(** [hasattr(v, name)] on plain data. *)
Definition py_hasattr (v : pyval) (name : string) : bool :=
  match v with
  | VObject _ attrs => bool_decide (is_Some (attrs !! name))
  | _ => false
  end.

(** [getattr(v, name, None)] on plain data. *)
Definition py_getattr_default (v : pyval) (name : string) : pyval :=
  match v with
  | VObject _ attrs => default VNone (attrs !! name)
  | _ => VNone
  end.

Definition is_none (v : pyval) : bool :=
  match v with VNone => true | _ => false end.

(** ** Exceptions and outcomes *)

(** Exception classes; a constructor stands for the class and its
    subclasses ([DoesNotExist] of a model is an [ObjectDoesNotExist]).  The
    message text of an exception is not part of the model. *)
Inductive exn : Type :=
  | ValueError
  | KeyError
  | AttributeError
  | TypeError
  | NotImplementedError
  | ObjectDoesNotExist
  | MultipleObjectsReturned
  | Resolver404
  | NotFound
  | BadRequest
  | ApiFieldError
  | ImmediateHttpResponse
  | OtherError (name : string).

Inductive outcome (A : Type) : Type :=
  | Ret (a : A)
  | Raise (e : exn).
Arguments Ret {A} a.
Arguments Raise {A} e.

(** ** Calls that leave the module *)

Inductive event : Type :=
  | CallFilter (kwargs : dict)
  | CallBuildFilters (filters : dict)
  | CallApplyFilters (applicable_filters : dict)
  | CallSuper (method : string) (kwargs : dict)
  | CallGenerateCacheKey (kwargs : dict)
  | CacheGet (key : string)
  | CacheSet (key : string) (v : pyval)
  | SetApiName (resource : string) (api : string)
  | CallDispatch (resource : string) (dispatch_type : string) (kwargs : dict).


(** ** The monad: cache state, exceptions, trace *)

Abbreviation store := (gmap string pyval).

Record run (A : Type) : Type := Run {
  result : outcome A;
  cache_after : store;
  trace : list event
}.
Arguments Run {A} _ _ _.
Arguments result {A} _.
Arguments cache_after {A} _.
Arguments trace {A} _.

Definition M (A : Type) : Type := store → run A.

Definition ret {A} (a : A) : M A := λ c, Run (Ret a) c [].

Definition raise {A} (e : exn) : M A := λ c, Run (Raise e) c [].

Definition bind {A B} (m : M A) (f : A → M B) : M B :=
  λ c,
    let r := m c in
    match result r with
    | Ret a =>
        let r' := f a (cache_after r) in
        Run (result r') (cache_after r') (trace r ++ trace r')
    | Raise e => Run (Raise e) (cache_after r) (trace r)
    end.

#[global] Instance M_ret : MRet M := @ret.
#[global] Instance M_bind : MBind M := λ A B f m, bind m f.

(** A call to the host framework: its outcome becomes the computation's. *)
Definition lift {A} (o : outcome A) : M A :=
  match o with Ret a => ret a | Raise e => raise e end.

Definition emit (ev : event) : M unit := λ c, Run (Ret tt) c [ev].

(** [try: body  except <classes>: handler]; [handler e = None] when no
    [except] clause matches [e]. *)
Definition try_except {A} (body : M A) (handler : exn → option (M A)) : M A :=
  λ c,
    let r := body c in
    match result r with
    | Ret a => r
    | Raise e =>
        match handler e with
        | Some h =>
            let r' := h (cache_after r) in
            Run (result r') (cache_after r') (trace r ++ trace r')
        | None => r
        end
    end.

(** [f(name=..., **d)]: a key of [d] that is also passed by name is a
    [TypeError]. *)
Definition splat (named : list string) (d : dict) : M dict :=
  if bool_decide (Exists (λ k, is_Some (d !! k)) named)
  then raise TypeError else ret d.

(** ** The host framework *)

(** What [nested_field.attribute] can be: a [str], a callable, or
    something else. *)
Inductive field_attribute : Type :=
  | AttrStr (name : string)
  | AttrCallable (f : pyval → outcome pyval)
  | AttrOther.

(** A field declared in the [Nested] class of a resource: the resource it
    leads to and the attribute that is followed on the parent object. *)
Record nested_field : Type := NestedField {
  to_class : string;
  attribute : field_attribute
}.

(** A method [apply_limits_nested_<name>(request, parent_object,
    object_list)] of an authorization object. *)
Definition auth_method : Type :=
  request → pyval → queryset → outcome queryset.

Inductive response : Type :=
  | HttpNotFound
  | HttpMultipleChoices
  | HttpResponse (status : Z) (body : bundle).

(** An entry of a URL configuration: [url(regex, view, name=...)] or
    [(regex, include(entries))]. *)
Inductive url : Type :=
  | Url (regex : string) (view : string) (name : string)
  | UrlInclude (regex : string) (entries : list url).

(** Everything the methods of [ExtendedModelResource] reach through [self]
    and do not define themselves: the options in [_meta], the methods
    inherited from the base resource class, the query layer, the cache and
    the URL resolver.  A call that can raise returns an [outcome]. *)
Record Framework : Type := {
  (* self._meta *)
  resource_name : string;
  detail_uri_name : string;
  api_name : string;
  (* the [Nested] class of the resource, attribute name to field *)
  Nested : gmap string nested_field;
  (* overridden methods of a subclass; None when the subclass keeps the
     method of ExtendedModelResource *)
  override_get_detail_uri_name_regex : option string;
  override_detail_actions : option (list url);
  (* tastypie.utils.trailing_slash() and Resource.prepend_urls() *)
  trailing_slash : string;
  prepend_urls : list url;
  (* django.core.urlresolvers *)
  get_script_prefix : string;
  resolve : string → outcome dict;
  (* the query layer *)
  get_object_list : request → outcome queryset;
  qs_filter : queryset → dict → outcome queryset;
  build_filters : dict → outcome dict;
  apply_filters : request → dict → outcome queryset;
  (* authorization *)
  is_authenticated : request → outcome unit;
  throttle_check : request → outcome unit;
  authorized_read_list : queryset → bundle → outcome queryset;
  authorized_read_detail : queryset → bundle → outcome unit;
  apply_authorization_limits : request → queryset → outcome queryset;
  (* <resource>._meta.authorization, by resource name: its
     apply_limits_nested_* methods by method name *)
  authorization : string → gmap string auth_method;
  (* self._meta.cache *)
  generate_cache_key : string → dict → string;
  cache_get : store → string → pyval;
  cache_set : store → string → pyval → store;
  (* bundles and responses *)
  build_bundle : pyval → request → bundle;
  full_dehydrate : bundle → outcome bundle;
  alter_detail_data_to_serialize : request → bundle → outcome bundle;
  create_response : request → bundle → outcome response;
  (* str(v) for a value that is not a str *)
  str_of : pyval → string;
  (* the implementations of the base class, reached through super() *)
  super_obj_create : bundle → dict → outcome bundle;
  super_obj_update : bundle → bool → dict → outcome bundle;
  super_obj_delete_list : bundle → dict → outcome unit;
  super_obj_delete_list_for_update : bundle → dict → outcome unit;
  super_obj_delete : bundle → dict → outcome unit;
  super_post_list : request → dict → outcome response;
  super_put_list : request → dict → outcome response;
  super_patch_list : request → dict → outcome response;
  (* <resource>.dispatch(request_type, request, **kwargs), by resource
     name *)
  dispatch : string → string → request → dict → outcome response
}.

(** ** ExtendedDeclarativeMetaclass *)

(** [not field_name.startswith('_')] *)
Definition is_public (field_name : string) : bool :=
  negb (String.prefix "_" field_name).

(** [__new__]: the mapping [_nested] from the names of the public
    attributes of the [Nested] class to the fields. *)
Definition nested_fields (nested_class : gmap string nested_field)
  : gmap string nested_field :=
  filter (λ kv, is_public kv.1 = true) nested_class.

(** ** ExtendedModelResource *)

(** The keys [real_remove_api_resource_names] deletes, in its order. *)
Definition removed_keys : list string :=
  ["api_name"; "resource_name"; "related_manager"; "child_object";
   "parent_resource"; "nested_name"; "parent_object"].

(** [d.copy()]: a new dictionary built from the items of [d]. *)
Definition dict_copy (d : dict) : dict := list_to_map (map_to_list d).

Definition remove_api_resource_names (url_dict : dict) : dict :=
  dict_copy url_dict.

(** [try: del kwargs_subset[key]  except KeyError: pass], for every key. *)
Definition real_remove_api_resource_names (url_dict : dict) : dict :=
  let kwargs_subset := dict_copy url_dict in
  fold_left (λ kwargs_subset key, delete key kwargs_subset)
            removed_keys kwargs_subset.

(** Modelled from the spec: [tastypie.http.BadRequest], the exception that
    [obj_get_list] raises for a mismatched lookup value.  The module
    [tastypie.http] is not part of this repository; the specification
    calls the condition bad-request. *)
Definition http_BadRequest : exn := BadRequest.

(** [r'\w[\w-]*'] *)
Definition get_detail_uri_name_regex : string := "\w[\w-]*".

(** [return []] *)
Definition detail_actions : list url := [].

(** [s[n:]] *)
Fixpoint string_from (n : nat) (s : string) : string :=
  match n, s with
  | O, _ => s
  | S n', String _ s' => string_from n' s'
  | S _, EmptyString => EmptyString
  end.

(** ['{0}'.format(v)] *)
Definition format_value (str_other : pyval → string) (v : pyval) : string :=
  match v with
  | VStr s => s
  | _ => str_other v
  end.

(** [manager.core_filters], used as [**manager.core_filters]. *)
Definition core_filters (manager : pyval) : outcome dict :=
  match manager with
  | VObject _ attrs =>
      match attrs !! "core_filters" with
      | Some (VDict d) => Ret d
      | Some _ => Raise TypeError
      | None => Raise AttributeError
      end
  | _ => Raise AttributeError
  end.

Section Methods.

Context (self : Framework).

(** [self._nested], built once by the metaclass. *)
Definition _nested : gmap string nested_field := nested_fields (Nested self).

(** [self.get_detail_uri_name_regex()] and [self.detail_actions()], through
    the method resolution of the resource's class. *)
Definition self_get_detail_uri_name_regex : string :=
  default get_detail_uri_name_regex (override_get_detail_uri_name_regex self).

Definition self_detail_actions : list url :=
  default detail_actions (override_detail_actions self).

Definition base_urls : list url :=
  [ Url ("^(?P<resource_name>" ++ resource_name self ++ ")"
           ++ trailing_slash self ++ "$")
        "dispatch_list" "api_dispatch_list";
    Url ("^(?P<resource_name>" ++ resource_name self ++ ")/schema"
           ++ trailing_slash self ++ "$")
        "get_schema" "api_get_schema";
    Url ("^(?P<resource_name>" ++ resource_name self ++ ")/set/(?P<"
           ++ detail_uri_name self ++ "_list>("
           ++ self_get_detail_uri_name_regex ++ ";?)*)/$")
        "get_multiple" "api_get_multiple";
    Url ("^(?P<resource_name>" ++ resource_name self ++ ")/(?P<"
           ++ detail_uri_name self ++ ">"
           ++ self_get_detail_uri_name_regex ++ ")"
           ++ trailing_slash self ++ "$")
        "dispatch_detail" "api_dispatch_detail" ].

Definition get_nested_url (nested_name : string) : url :=
  Url ("^(?P<resource_name>" ++ resource_name self ++ ")/(?P<"
         ++ detail_uri_name self ++ ">"
         ++ self_get_detail_uri_name_regex ++ ")/"
         ++ "(?P<nested_name>" ++ nested_name ++ ")"
         ++ trailing_slash self ++ "$")
      "dispatch_nested" "api_dispatch_nested".

Definition nested_urls : list url :=
  get_nested_url <$> (map_to_list _nested).*1.

Definition detail_actions_urlpatterns : list url :=
  match self_detail_actions with
  | [] => []
  | actions =>
      let detail_url :=
        "^(?P<resource_name>" ++ resource_name self ++ ")/(?P<"
          ++ detail_uri_name self ++ ">"
          ++ self_get_detail_uri_name_regex ++ ")"
          ++ trailing_slash self in
      [UrlInclude detail_url actions]
  end.

Definition urls : list url :=
  let urls := (prepend_urls self ++ base_urls ++ nested_urls)%list in
  (urls ++ detail_actions_urlpatterns)%list.

(** The first lines of [get_via_uri_resolver]: the uri without the script
    prefix. *)
Definition chomp_uri (uri : string) : string :=
  let prefix := get_script_prefix self in
  let chomped_uri := uri in
  if negb (String.eqb prefix "") && String.prefix prefix chomped_uri
  then string_from (String.length prefix - 1) chomped_uri
  else chomped_uri.

Definition get_via_uri_resolver (uri : string) : M dict :=
  let chomped_uri := chomp_uri uri in
  try_except (lift (resolve self chomped_uri))
    (λ e, match e with
          | Resolver404 => Some (raise NotFound)
          | _ => None
          end).

(** [filters = {}], or [bundle.request.GET.copy()] when the request has
    a [GET]. *)
Definition GET_copy (request : request) : dict :=
  match request with
  | HttpRequest _ GET => VStr <$> GET
  | NoRequest => ∅
  end.

Definition obj_get_list_filters (bundle : bundle) (kwargs : dict) : dict :=
  let filters := GET_copy (b_request bundle) in
  (* filters.update(...) *)
  real_remove_api_resource_names kwargs ∪ filters.

Definition obj_get_list (bundle : bundle) (kwargs : dict) : M queryset :=
  let filters := obj_get_list_filters bundle kwargs in
  emit (CallBuildFilters filters);;
  applicable_filters ← lift (build_filters self filters);
  try_except
    (emit (CallApplyFilters applicable_filters);;
     base_object_list ←
       lift (apply_filters self (b_request bundle) applicable_filters);
     base_object_list ←
       match kwargs !! "related_manager" with
       | Some related_manager =>
           core ← lift (core_filters related_manager);
           emit (CallFilter core);;
           lift (qs_filter self base_object_list core)
       | None => mret base_object_list
       end;
     lift (authorized_read_list self base_object_list bundle))
    (λ e, match e with
          | ValueError => Some (raise http_BadRequest)
          | _ => None
          end).

(** [bundle.obj = base_object_list[0]] changes the caller's bundle too; no
    caller in this class reads it again, so the changed bundle is only
    handed to [authorized_read_detail]. *)
Definition obj_get (bundle : bundle) (kwargs : dict) : M pyval :=
  try_except
    (objects ← lift (get_object_list self (b_request bundle));
     let lookup := real_remove_api_resource_names kwargs in
     emit (CallFilter lookup);;
     base_object_list ← lift (qs_filter self objects lookup);
     if (length base_object_list <=? 0)%nat then raise ObjectDoesNotExist
     else if (1 <? length base_object_list)%nat then raise MultipleObjectsReturned
     else
       match base_object_list !! 0 with
       | Some o =>
           let bundle := set_obj bundle o in
           lift (authorized_read_detail self base_object_list bundle);;
           mret (b_obj bundle)
       | None => raise (OtherError "IndexError")
       end)
    (λ e, match e with
          | ValueError => Some (raise NotFound)
          | _ => None
          end).

(** [self._meta.cache.get(key)] and [self._meta.cache.set(key, v)] *)
Definition meta_cache_get (key : string) : M pyval :=
  emit (CacheGet key);;
  ((λ c, Run (Ret (cache_get self c key)) c []) : M pyval).

Definition meta_cache_set (key : string) (v : pyval) : M unit :=
  emit (CacheSet key v);;
  ((λ c, Run (Ret tt) (cache_set self c key v) []) : M unit).

Definition cached_obj_get (bundle : bundle) (kwargs : dict) : M pyval :=
  let stripped := real_remove_api_resource_names kwargs in
  emit (CallGenerateCacheKey stripped);;
  let cache_key := generate_cache_key self "detail" stripped in
  cached_bundle ← meta_cache_get cache_key;
  if is_none cached_bundle then
    (* the name [bundle] is bound again, to what [obj_get] returns *)
    o ← obj_get bundle kwargs;
    meta_cache_set cache_key o;;
    mret o
  else
    mret (bundle_val bundle).

Definition obj_create : bundle → dict → M bundle := λ bundle kwargs,
  let kwargs := real_remove_api_resource_names kwargs in
  emit (CallSuper "obj_create" kwargs);;
  lift (super_obj_create self bundle kwargs).

Definition obj_update : bundle → bool → dict → M bundle :=
  λ bundle skip_errors kwargs,
  let kwargs := real_remove_api_resource_names kwargs in
  emit (CallSuper "obj_update" kwargs);;
  lift (super_obj_update self bundle skip_errors kwargs).

Definition obj_delete_list (bundle : bundle) (kwargs : dict) : M unit :=
  let kwargs := real_remove_api_resource_names kwargs in
  emit (CallSuper "obj_delete_list" kwargs);;
  lift (super_obj_delete_list self bundle kwargs).

Definition obj_delete_list_for_update (bundle : bundle) (kwargs : dict)
  : M unit :=
  let kwargs := real_remove_api_resource_names kwargs in
  emit (CallSuper "obj_delete_list_for_update" kwargs);;
  lift (super_obj_delete_list_for_update self bundle kwargs).

Definition obj_delete (bundle : bundle) (kwargs : dict) : M unit :=
  let kwargs := real_remove_api_resource_names kwargs in
  emit (CallSuper "obj_delete" kwargs);;
  lift (super_obj_delete self bundle kwargs).

Definition obj_get_no_auth_check (request : request) (kwargs : dict)
  : M pyval :=
  try_except
    (objects ← lift (get_object_list self request);
     emit (CallFilter kwargs);;
     object_list ← lift (qs_filter self objects kwargs);
     if (length object_list <=? 0)%nat then raise ObjectDoesNotExist
     else if (1 <? length object_list)%nat then raise MultipleObjectsReturned
     else
       match object_list !! 0 with
       | Some o => mret o
       | None => raise (OtherError "IndexError")
       end)
    (λ e, match e with
          | ValueError => Some (raise NotFound)
          | _ => None
          end).

Definition get_via_uri_no_auth_check (uri : string) (request : request)
  : M pyval :=
  kwargs ← get_via_uri_resolver uri;
  kwargs ← splat ["request"] (remove_api_resource_names kwargs);
  obj_get_no_auth_check request kwargs.

(** [parent_resource._meta.authorization], as far as its
    [apply_limits_nested_*] methods go. *)
Definition meta_authorization (parent_resource : pyval)
  : M (gmap string auth_method) :=
  match parent_resource with
  | VResource name => mret (authorization self name)
  | _ => raise AttributeError
  end.

Definition apply_nested_authorization_limits (request : request)
    (object_list : queryset) (parent_resource parent_object nested_name : pyval)
  : M queryset :=
  let method_name :=
    "apply_limits_nested_" ++ format_value (str_of self) nested_name in
  auth ← meta_authorization parent_resource;
  match auth !! method_name with
  | Some method => lift (method request parent_object object_list)
  | None => mret object_list
  end.

Definition apply_proper_authorization_limits (request : request)
    (object_list : queryset) (kwargs : dict) : M queryset :=
  let parent_resource := default VNone (kwargs !! "parent_resource") in
  if is_none parent_resource then
    lift (apply_authorization_limits self request object_list)
  else
    apply_nested_authorization_limits request object_list parent_resource
      (default VNone (kwargs !! "parent_object"))
      (default VNone (kwargs !! "nested_name")).

(** [self._nested[nested_name]] *)
Definition nested_getitem (nested_name : pyval) : M nested_field :=
  match nested_name with
  | VStr n =>
      match _nested !! n with
      | Some f => mret f
      | None => raise KeyError
      end
  | _ => raise KeyError
  end.

(** The [try] block of [dispatch_nested] that follows the declared
    relation on the parent object.  The message of the [ApiFieldError] is
    not modelled. *)
Definition nested_manager (nested_field : nested_field) (obj : pyval)
  : M pyval :=
  try_except
    (match attribute nested_field with
     | AttrStr name => mret (py_getattr_default obj name)
     | AttrCallable f => lift (f obj)
     | AttrOther => raise ApiFieldError
     end)
    (λ e, match e with
          | ObjectDoesNotExist => Some (mret VNone)
          | _ => None
          end).

(** A [return] from inside a [try] block ends the method with a response
    ([inr]); otherwise the method goes on with the object ([inl]). *)
Definition dispatch_nested (request : request) (kwargs : dict) : M response :=
  lift (is_authenticated self request);;
  lift (throttle_check self request);;
  match kwargs !! "nested_name" with
  | None => raise KeyError
  | Some nested_name =>
      let kwargs := delete "nested_name" kwargs in
      nested_field ← nested_getitem nested_name;
      let basic_bundle := build_bundle self VNone request in
      found ←
        try_except
          (d ← splat ["bundle"] (remove_api_resource_names kwargs);
           obj ← cached_obj_get basic_bundle d;
           mret (inl obj))
          (λ e, match e with
                | ObjectDoesNotExist => Some (mret (inr HttpNotFound))
                | MultipleObjectsReturned =>
                    Some (mret (inr HttpMultipleChoices))
                | _ => None
                end);
      match found with
      | inr early => mret early
      | inl obj =>
          let nested_resource := to_class nested_field in
          emit (SetApiName nested_resource (api_name self));;
          manager ← nested_manager nested_field obj;
          let kwargs := <["nested_name" := nested_name]> kwargs in
          let kwargs :=
            <["parent_resource" := VResource (resource_name self)]> kwargs in
          let kwargs := <["parent_object" := obj]> kwargs in
          if is_none manager || negb (py_hasattr manager "all") then
            let dispatch_type := "detail" in
            let kwargs := <["child_object" := manager]> kwargs in
            emit (CallDispatch nested_resource dispatch_type kwargs);;
            lift (dispatch self nested_resource dispatch_type request kwargs)
          else
            let dispatch_type := "list" in
            let kwargs := <["related_manager" := manager]> kwargs in
            (* 'pk' will refer to the parent, so we remove it. *)
            let kwargs := delete (detail_uri_name self) kwargs in
            emit (CallDispatch nested_resource dispatch_type kwargs);;
            lift (dispatch self nested_resource dispatch_type request kwargs)
      end
  end.

Definition get_detail (request : request) (kwargs : dict) : M response :=
  let basic_bundle := build_bundle self VNone request in
  found ←
    try_except
      (match kwargs !! "child_object" with
       | Some obj =>
           if is_none obj then mret (inr HttpNotFound) else mret (inl obj)
       | None =>
           d ← splat ["bundle"] (remove_api_resource_names kwargs);
           obj ← cached_obj_get basic_bundle d;
           mret (inl obj)
       end)
      (λ e, match e with
            | AttributeError => Some (mret (inr HttpNotFound))
            | ObjectDoesNotExist => Some (mret (inr HttpNotFound))
            | MultipleObjectsReturned => Some (mret (inr HttpMultipleChoices))
            | _ => None
            end);
  match found with
  | inr early => mret early
  | inl obj =>
      let bundle := build_bundle self obj request in
      bundle ← lift (full_dehydrate self bundle);
      bundle ← lift (alter_detail_data_to_serialize self request bundle);
      lift (create_response self request bundle)
  end.

Definition post_list (request : request) (kwargs : dict) : M response :=
  if bool_decide (is_Some (kwargs !! "parent_resource")) then
    raise NotImplementedError
  else
    emit (CallSuper "post_list" kwargs);;
    lift (super_post_list self request kwargs).

Definition put_list (request : request) (kwargs : dict) : M response :=
  if bool_decide (is_Some (kwargs !! "parent_resource")) then
    raise NotImplementedError
  else
    emit (CallSuper "put_list" kwargs);;
    lift (super_put_list self request kwargs).

Definition patch_list (request : request) (kwargs : dict) : M response :=
  if bool_decide (is_Some (kwargs !! "parent_resource")) then
    raise NotImplementedError
  else
    emit (CallSuper "patch_list" kwargs);;
    lift (super_patch_list self request kwargs).

End Methods.

(** ** Lookup of a nested resource by its uri *)

(** A request as the value of a keyword argument. *)
Definition request_val (request : request) : pyval :=
  match request with
  | NoRequest => VNone
  | HttpRequest method GET =>
      VObject "HttpRequest"
        (<["method" := VStr method]> {[ "GET" := VDict (VStr <$> GET) ]})
  end.

(** The value that a call binds to the parameter [bundle] of [obj_get],
    read as a bundle.  The first thing [obj_get] does is [bundle.request];
    of the values of the model only a bundle has a request. *)
Definition as_bundle (v : pyval) : outcome bundle :=
  match v with
  | VBundle obj data req => Ret (Bundle obj data req)
  | _ => Raise AttributeError
  end.

(** [self.obj_get(nested_name=..., parent_resource=..., parent_object=...,
    request=request, **kwargs)]: every argument is passed by keyword, so
    the parameter [bundle] of [obj_get] is bound only when the resolved
    kwargs have the key ['bundle']; without it the call is a [TypeError]. *)
Definition get_nested_via_uri (self : Framework) (uri : string)
    (parent_resource parent_object nested_name : pyval) (request : request)
  : M pyval :=
  kwargs ← get_via_uri_resolver self uri;
  d ← splat ["nested_name"; "parent_resource"; "parent_object"; "request"]
            (remove_api_resource_names kwargs);
  let keywords : dict :=
    <["nested_name" := nested_name]>
      (<["parent_resource" := parent_resource]>
         (<["parent_object" := parent_object]>
            (<["request" := request_val request]> d))) in
  match keywords !! "bundle" with
  | None => raise TypeError
  | Some b =>
      bundle ← lift (as_bundle b);
      obj_get self bundle (delete "bundle" keywords)
  end.

(** ** The regular expressions of detail identifiers *)

(** The fragment of Python's [re] syntax that identifier patterns such as
    [\w[\w-]*] are written in: literal characters, the class escape [\w],
    character sets [[...]] of literals and [\w], and the postfix [*].
    Characters are bytes and [\w] is the ASCII class [[A-Za-z0-9_]]. *)
Module Regex.





(** *** Parsing *)






(** *** Matching, by derivatives *)








End Regex.

(** ** A small installation

    A user resource with a nested [entries] relation, over a query layer
    that looks objects up by [pk], a cache that keeps what it is given and
    an authorization that accepts or refuses every read. *)
Module Demo.

Definition entry (pk : Z) : pyval :=
  VObject "Entry" {[ "pk" := VInt pk ]}.

Definition entries_manager : pyval :=
  VObject "RelatedManager"
    (<["all" := VStr "<bound method all>"]>
       {[ "core_filters" := VDict {[ "user__pk" := VInt 1 ]} ]}).

Definition user1 : pyval :=
  VObject "User" (<["pk" := VInt 1]> {[ "entries" := entries_manager ]}).

Definition has_pk (pk : Z) (o : pyval) : bool :=
  match py_getattr_default o "pk" with
  | VInt z => Z.eqb z pk
  | _ => false
  end.

(** [filter(pk=...)]: an integer selects, anything else is a mismatched
    type; a lookup on another field is a field error. *)
Definition filter_by_pk (objects : queryset) (kwargs : dict)
  : outcome queryset :=
  match map_to_list (delete "pk" kwargs) with
  | _ :: _ => Raise (OtherError "FieldError")
  | [] =>
      match kwargs !! "pk" with
      | None => Ret objects
      | Some (VInt pk) => Ret (List.filter (has_pk pk) objects)
      | Some _ => Raise ValueError
      end
  end.

Definition cache_key (kind : string) (kwargs : dict) : string :=
  String.concat ":" (kind :: (map_to_list kwargs).*1).

Definition resolved : dict :=
  <["api_name" := VStr "v1"]>
    (<["resource_name" := VStr "user"]> {[ "pk" := VInt 1 ]}).

Definition installation (objects : queryset) (allow_read : bool)
  : Framework :=
  {| resource_name := "user";
     detail_uri_name := "pk";
     api_name := "v1";
     Nested := {[ "entries" := NestedField "entry" (AttrStr "entries") ]};
     override_get_detail_uri_name_regex := None;
     override_detail_actions := None;
     trailing_slash := "/?";
     prepend_urls := [];
     get_script_prefix := "/";
     resolve := λ uri,
       if String.eqb uri "/api/v1/user/1/" then Ret resolved
       else Raise Resolver404;
     get_object_list := λ _, Ret objects;
     qs_filter := filter_by_pk;
     build_filters := λ filters, Ret filters;
     apply_filters := λ _ applicable, filter_by_pk objects applicable;
     is_authenticated := λ _, Ret tt;
     throttle_check := λ _, Ret tt;
     authorized_read_list := λ object_list _,
       if allow_read then Ret object_list else Raise ImmediateHttpResponse;
     authorized_read_detail := λ _ _,
       if allow_read then Ret tt else Raise ImmediateHttpResponse;
     apply_authorization_limits := λ _ object_list,
       if allow_read then Ret object_list else Ret [];
     authorization := λ _, ∅;
     generate_cache_key := cache_key;
     cache_get := λ c key, default VNone (c !! key);
     cache_set := λ c key v, <[key := v]> c;
     build_bundle := λ obj req, Bundle obj ∅ req;
     full_dehydrate := λ b, Ret b;
     alter_detail_data_to_serialize := λ _ b, Ret b;
     create_response := λ _ b, Ret (HttpResponse 200 b);
     str_of := λ _, "<object>";
     super_obj_create := λ b _, Ret b;
     super_obj_update := λ b _ _, Ret b;
     super_obj_delete_list := λ _ _, Ret tt;
     super_obj_delete_list_for_update := λ _ _, Ret tt;
     super_obj_delete := λ _ _, Ret tt;
     super_post_list := λ req kwargs, Ret (HttpResponse 201 (Bundle VNone kwargs req));
     super_put_list := λ req kwargs, Ret (HttpResponse 204 (Bundle VNone kwargs req));
     super_patch_list := λ req kwargs, Ret (HttpResponse 202 (Bundle VNone kwargs req));
     dispatch := λ _ _ req kwargs, Ret (HttpResponse 200 (Bundle VNone kwargs req))
  |}.

Definition get : request := HttpRequest "GET" ∅.

Definition basic_bundle : bundle := Bundle VNone ∅ get.

(** Lookup kwargs of a nested detail request on entry [pk]. *)
Definition nested_kwargs (pk : Z) : dict :=
  <["pk" := VInt pk]>
    (<["parent_resource" := VResource "user"]>
       (<["parent_object" := user1]> {[ "nested_name" := VStr "entries" ]})).

End Demo.

(** ** Vocabulary of the statements *)


(** The calls of [obj_get_list] after [build_filters]: the list query on
    the filters that [build_filters] returned, and the [filter] on the core
    filters of the related manager. *)
Definition list_query_event (self : Framework) (filters kwargs : dict)
    (ev : event) : Prop :=
  match ev with
  | CallApplyFilters applicable => build_filters self filters = Ret applicable
  | CallFilter core =>
      ∃ cls attrs, kwargs !! "related_manager" = Some (VObject cls attrs)
                   ∧ attrs !! "core_filters" = Some (VDict core)
  | _ => False
  end.

(** [except ValueError: raise replacement], on an outcome. *)
Definition on_value_error {A} (replacement : exn) (o : outcome A)
  : outcome A :=
  match o with
  | Raise ValueError => Raise replacement
  | _ => o
  end.


(** Bind on outcomes, for the calls of the framework that follow one
    another. *)
Definition and_then {A B} (o : outcome A) (f : A → outcome B) : outcome B :=
  match o with
  | Ret a => f a
  | Raise e => Raise e
  end.

(** [len(object_list) <= 0], [len(object_list) > 1], [object_list[0]]: the
    choice both detail lookups make on the filtered list. *)
Definition single (object_list : queryset) : outcome pyval :=
  match object_list with
  | [] => Raise ObjectDoesNotExist
  | [o] => Ret o
  | _ :: _ :: _ => Raise MultipleObjectsReturned
  end.

(** The end of [get_detail]: the object in a new bundle, dehydrated,
    altered and given to [create_response]. *)
Definition serialize (self : Framework) (request : request) (obj : pyval)
  : outcome response :=
  and_then (full_dehydrate self (build_bundle self obj request))
    (λ b, and_then (alter_detail_data_to_serialize self request b)
            (create_response self request)).

(** The [except] clauses of [get_detail]. *)
Definition detail_response (self : Framework) (request : request)
    (looked_up : outcome pyval) : outcome response :=
  match looked_up with
  | Ret obj => serialize self request obj
  | Raise AttributeError => Ret HttpNotFound
  | Raise ObjectDoesNotExist => Ret HttpNotFound
  | Raise MultipleObjectsReturned => Ret HttpMultipleChoices
  | Raise e => Raise e
  end.

(** The pattern of an entry of a URL configuration. *)
Definition url_regex (u : url) : string :=
  match u with
  | Url regex _ _ => regex
  | UrlInclude regex _ => regex
  end.

(** The calls that go to the query layer. *)
Definition is_query (ev : event) : bool :=
  match ev with
  | CallFilter _ | CallBuildFilters _ | CallApplyFilters _ => true
  | _ => false
  end.

Definition is_dispatch (ev : event) : bool :=
  match ev with
  | CallDispatch _ _ _ => true
  | _ => false
  end.

Definition is_cache_write (ev : event) : bool :=
  match ev with
  | CacheSet _ _ => true
  | _ => false
  end.

(** What [dispatch_nested] adds to the kwargs of the parent before it
    dispatches to the child resource. *)
Definition nested_bookkeeping (nested_name parent_resource parent_object
    : pyval) (kwargs : dict) : dict :=
  <["parent_object" := parent_object]>
    (<["parent_resource" := parent_resource]>
       (<["nested_name" := nested_name]> kwargs)).

(** * Properties *)

Local Open Scope list_scope.

(** ** Dictionaries *)

Lemma dict_copy_id (d : dict) : dict_copy d = d.
Proof. unfold dict_copy. apply list_to_map_to_list. Qed.

Lemma removed_keys_elem (k : string) :
  k ∈ removed_keys ↔
  k = "api_name" ∨ k = "resource_name" ∨ k = "related_manager"
  ∨ k = "child_object" ∨ k = "parent_resource" ∨ k = "nested_name"
  ∨ k = "parent_object".
Proof. unfold removed_keys. rewrite !elem_of_cons, elem_of_nil. tauto. Qed.

(** What [real_remove_api_resource_names] leaves under each key. *)
Lemma real_remove_lookup (d : dict) (k : string) :
  real_remove_api_resource_names d !! k
  = if bool_decide (k ∈ removed_keys) then None else d !! k.
Proof.
  unfold real_remove_api_resource_names. rewrite dict_copy_id. simpl.
  rewrite !lookup_delete.
  case_bool_decide as Hk.
  - apply removed_keys_elem in Hk.
    repeat case_decide; try reflexivity.
    repeat (destruct Hk as [Hk | Hk]; [congruence |]). congruence.
  - repeat case_decide; try reflexivity;
      exfalso; apply Hk; apply removed_keys_elem; subst k; tauto.
Qed.

Lemma real_remove_stripped (d : dict) :
  Forall (λ k, real_remove_api_resource_names d !! k = None) removed_keys.
Proof.
  apply Forall_forall. intros k Hk.
  rewrite real_remove_lookup. by rewrite bool_decide_eq_true_2.
Qed.

(** Stripping a stripped dictionary changes nothing. *)
Lemma real_remove_idempotent (d : dict) :
  real_remove_api_resource_names (real_remove_api_resource_names d)
  = real_remove_api_resource_names d.
Proof.
  apply map_eq. intros k. rewrite (real_remove_lookup (real_remove_api_resource_names d)).
  case_bool_decide as Hk; [| reflexivity].
  rewrite real_remove_lookup. by rewrite bool_decide_eq_true_2.
Qed.

(** C9: [remove_api_resource_names] returns a dictionary equal to its
    argument, so every key, the seven removed ones included, is still
    there; [real_remove_api_resource_names] is what deletes these seven
    keys, and it keeps every other key. *)
Theorem remove_api_resource_names_keeps_all (d : dict) :
  remove_api_resource_names d = d
  ∧ Forall (λ k, remove_api_resource_names d !! k = d !! k) removed_keys
  ∧ Forall (λ k, real_remove_api_resource_names d !! k = None) removed_keys
  ∧ ∀ k, real_remove_api_resource_names d !! k
         = if bool_decide (k ∈ removed_keys) then None else d !! k.
Proof.
  assert (Hid : remove_api_resource_names d = d) by apply dict_copy_id.
  split; [exact Hid |]. split.
  - apply Forall_forall. intros k _. by rewrite Hid.
  - split; [apply real_remove_stripped | apply real_remove_lookup].
Qed.

(** ** Running the methods *)

Ltac run_unfold :=
  unfold mbind, M_bind, bind, mret, M_ret, ret, lift, emit, raise,
    try_except in *; simpl in *.

Ltac run_case :=
  match goal with
  | |- context [match ?o with Ret _ => _ | Raise _ => _ end] =>
      destruct o eqn:?; simpl in *
  | |- context [match ?e with ValueError => _ | _ => _ end] =>
      destruct e; simpl in *
  | |- context [if ?b then _ else _] => destruct b eqn:?; simpl in *
  | |- context [match ?l !! ?i with Some _ => _ | None => _ end] =>
      destruct (l !! i) eqn:?; simpl in *
  end.

Ltac run_all := run_unfold; repeat run_case.

Section Traces.

Context (self : Framework).

Lemma obj_get_trace (bundle : bundle) (kwargs : dict) (c : store) :
  trace (obj_get self bundle kwargs c)
  = match get_object_list self (b_request bundle) with
    | Ret _ => [CallFilter (real_remove_api_resource_names kwargs)]
    | Raise _ => []
    end.
Proof. unfold obj_get. run_all; simplify_eq; reflexivity. Qed.

Lemma obj_get_cache (bundle : bundle) (kwargs : dict) (c : store) :
  cache_after (obj_get self bundle kwargs c) = c.
Proof. unfold obj_get. run_all; simplify_eq; reflexivity. Qed.

Lemma cached_obj_get_trace (bundle : bundle) (kwargs : dict) (c : store) :
  let stripped := real_remove_api_resource_names kwargs in
  let key := generate_cache_key self "detail" stripped in
  trace (cached_obj_get self bundle kwargs c)
  = [CallGenerateCacheKey stripped; CacheGet key]
    ++ (if is_none (cache_get self c key) then
          trace (obj_get self bundle kwargs c)
          ++ match result (obj_get self bundle kwargs c) with
             | Ret o => [CacheSet key o]
             | Raise _ => []
             end
        else []).
Proof.
  intros stripped key. unfold cached_obj_get, meta_cache_get, meta_cache_set.
  fold stripped. fold key. run_unfold.
  destruct (is_none (cache_get self c key)); simpl; [| reflexivity].
  destruct (result (obj_get self bundle kwargs c)); simpl;
    by rewrite ?app_nil_r.
Qed.

Lemma obj_get_list_trace (bundle : bundle) (kwargs : dict) (c : store) :
  let filters := obj_get_list_filters bundle kwargs in
  ∃ rest,
    trace (obj_get_list self bundle kwargs c) = CallBuildFilters filters :: rest
    ∧ Forall (list_query_event self filters kwargs) rest.
Proof.
  intros filters. unfold obj_get_list, core_filters. fold filters.
  run_unfold.
  destruct (build_filters self filters) as [applicable | e] eqn:Hbuild; simpl;
    [| by exists []].
  destruct (apply_filters self (b_request bundle) applicable) as [base | e];
    simpl.
  - destruct (kwargs !! "related_manager") as [[| | | | cls attrs | |] |]
      eqn:Hmanager; simpl;
      try (eexists; split; [reflexivity |];
           repeat constructor; by simpl).
    + destruct (attrs !! "core_filters") as [[| | | core | | |] |] eqn:Hcore;
        simpl;
        try (eexists; split; [reflexivity |]; repeat constructor; by simpl).
      destruct (qs_filter self base core) as [base' | e]; simpl.
      * destruct (authorized_read_list self base' bundle) as [| []]; simpl;
          (eexists; split; [reflexivity |]);
          (constructor; [exact Hbuild |]);
          (constructor; [by exists cls, attrs |]); constructor.
      * destruct e; simpl;
          (eexists; split; [reflexivity |]);
          (constructor; [exact Hbuild |]);
          (constructor; [by exists cls, attrs |]); constructor.
    + destruct (authorized_read_list self base bundle) as [| []]; simpl;
        (eexists; split; [reflexivity |]);
        (constructor; [exact Hbuild |]); constructor.
  - destruct e; simpl; (eexists; split; [reflexivity |]);
      (constructor; [exact Hbuild |]); constructor.
Qed.


End Traces.


(** ** List mutations under a parent *)

(** C5: with the key ['parent_resource'] in its kwargs, each of
    [post_list], [put_list] and [patch_list] raises [NotImplementedError]
    and calls nothing; without the key it calls the base implementation
    with the same request and the same kwargs and returns its outcome. *)
Theorem list_mutations_refuse_nested (self : Framework) (request : request)
    (kwargs : dict) (c : store) :
  post_list self request kwargs c
  = match kwargs !! "parent_resource" with
    | Some _ => Run (Raise NotImplementedError) c []
    | None => Run (super_post_list self request kwargs) c
                  [CallSuper "post_list" kwargs]
    end
  ∧ put_list self request kwargs c
    = match kwargs !! "parent_resource" with
      | Some _ => Run (Raise NotImplementedError) c []
      | None => Run (super_put_list self request kwargs) c
                    [CallSuper "put_list" kwargs]
      end
  ∧ patch_list self request kwargs c
    = match kwargs !! "parent_resource" with
      | Some _ => Run (Raise NotImplementedError) c []
      | None => Run (super_patch_list self request kwargs) c
                    [CallSuper "patch_list" kwargs]
      end.
Proof.
  unfold post_list, put_list, patch_list.
  destruct (kwargs !! "parent_resource") as [parent |] eqn:Hparent.
  - rewrite !bool_decide_eq_true_2 by eauto. done.
  - rewrite !bool_decide_eq_false_2 by (intros [? ?]; discriminate).
    run_unfold.
    destruct (super_post_list self request kwargs),
      (super_put_list self request kwargs),
      (super_patch_list self request kwargs); done.
Qed.

(** ** Authorization limits *)

(** C3, as the code has it: without ['parent_resource'] in the kwargs, or
    with [None] under it, the result is the resource's own
    [apply_authorization_limits]; with a parent resource whose
    authorization object has the method [apply_limits_nested_<nested_name>],
    it is that method applied to the request, the parent object and the
    object list; with a parent resource that has no such method, it is the
    object list as it came.  A parent that is not a resource has no
    [_meta]. *)
Theorem apply_proper_authorization_limits_cases (self : Framework)
    (request : request) (object_list : queryset) (kwargs : dict) (c : store) :
  apply_proper_authorization_limits self request object_list kwargs c
  = match kwargs !! "parent_resource" with
    | None | Some VNone =>
        Run (apply_authorization_limits self request object_list) c []
    | Some (VResource parent) =>
        let nested_name := default VNone (kwargs !! "nested_name") in
        let parent_object := default VNone (kwargs !! "parent_object") in
        match authorization self parent
                !! ("apply_limits_nested_"
                    ++ format_value (str_of self) nested_name)%string with
        | Some method => Run (method request parent_object object_list) c []
        | None => Run (Ret object_list) c []
        end
    | Some _ => Run (Raise AttributeError) c []
    end.
Proof.
  unfold apply_proper_authorization_limits,
    apply_nested_authorization_limits, meta_authorization.
  destruct (kwargs !! "parent_resource") as [[| | | | | | parent] |]; simpl;
    run_unfold; try reflexivity;
    try (by destruct (apply_authorization_limits self request object_list)).
  destruct (authorization self parent !! _) as [method |]; [| reflexivity].
  by destruct (method request _ object_list).
Qed.

(** C3 as the specification states it fails: under a parent resource whose
    authorization object has no method for the relation, the object list
    comes back whole, where the resource's own authorization limits would
    have emptied it. *)
Lemma apply_proper_authorization_limits_no_fallback :
  let self := Demo.installation [Demo.entry 1] false in
  let kwargs : dict :=
    <["parent_resource" := VResource "user"]>
      {[ "nested_name" := VStr "entries" ]} in
  authorization self "user" !! "apply_limits_nested_entries" = None
  ∧ apply_authorization_limits self Demo.get [Demo.entry 1] = Ret []
  ∧ result (apply_proper_authorization_limits self Demo.get [Demo.entry 1]
              kwargs ∅) = Ret [Demo.entry 1]
  ∧ result (apply_proper_authorization_limits self Demo.get [Demo.entry 1]
              kwargs ∅)
    ≠ apply_authorization_limits self Demo.get [Demo.entry 1].
Proof.
  simpl. split; [reflexivity |]. split; [reflexivity |].
  split; [vm_compute; reflexivity |].
  vm_compute. discriminate.
Qed.

(** ** The cache in front of [obj_get] *)

Section Cache.

Context (self : Framework).

(** What [cached_obj_get] does, by the answer of the cache. *)
Lemma cached_obj_get_run (bundle : bundle) (kwargs : dict) (c : store) :
  let stripped := real_remove_api_resource_names kwargs in
  let key := generate_cache_key self "detail" stripped in
  let fetched := obj_get self bundle kwargs c in
  cached_obj_get self bundle kwargs c
  = if is_none (cache_get self c key) then
      match result fetched with
      | Ret o =>
          Run (Ret o) (cache_set self c key o)
              ([CallGenerateCacheKey stripped; CacheGet key]
               ++ trace fetched ++ [CacheSet key o])
      | Raise e =>
          Run (Raise e) c
              ([CallGenerateCacheKey stripped; CacheGet key] ++ trace fetched)
      end
    else
      Run (Ret (bundle_val bundle)) c
          [CallGenerateCacheKey stripped; CacheGet key].
Proof.
  intros stripped key fetched.
  unfold cached_obj_get, meta_cache_get, meta_cache_set.
  fold stripped. fold key. run_unfold.
  destruct (is_none (cache_get self c key)); simpl; [| reflexivity].
  fold fetched. pose proof (obj_get_cache self bundle kwargs c) as Hc.
  fold fetched in Hc.
  destruct (result fetched); simpl; rewrite Hc; [| reflexivity].
  by rewrite ?app_nil_r.
Qed.

End Cache.

(** C6, on a hit: with an entry cached under the key of the lookup,
    [cached_obj_get] asks the cache under the key generated from the
    stripped kwargs, fetches nothing, and returns the bundle it was called
    with, not the cached entry. *)
Theorem cached_obj_get_hit_returns_argument :
  let self := Demo.installation [Demo.entry 1; Demo.entry 2] true in
  let kwargs := Demo.nested_kwargs 1 in
  let key := generate_cache_key self "detail"
               (real_remove_api_resource_names kwargs) in
  let warm := cache_after (cached_obj_get self Demo.basic_bundle kwargs ∅) in
  result (cached_obj_get self Demo.basic_bundle kwargs ∅)
  = Ret (Demo.entry 1)
  ∧ cache_get self warm key = Demo.entry 1
  ∧ trace (cached_obj_get self Demo.basic_bundle kwargs warm)
    = [CallGenerateCacheKey (real_remove_api_resource_names kwargs);
       CacheGet key]
  ∧ result (cached_obj_get self Demo.basic_bundle kwargs warm)
    = Ret (bundle_val Demo.basic_bundle)
  ∧ result (cached_obj_get self Demo.basic_bundle kwargs warm)
    ≠ Ret (cache_get self warm key).
Proof.
  simpl. repeat split; try (vm_compute; reflexivity).
  vm_compute. discriminate.
Qed.

(** ** Lookups without authorization *)

Section NoAuthCheck.

Context (self : Framework).

Lemma obj_get_no_auth_check_result (request : request) (kwargs : dict)
    (c : store) :
  result (obj_get_no_auth_check self request kwargs c)
  = on_value_error NotFound
      (and_then (get_object_list self request)
         (λ objects, and_then (qs_filter self objects kwargs) single)).
Proof.
  unfold obj_get_no_auth_check. run_unfold.
  destruct (get_object_list self request) as [objects | []]; simpl;
    try reflexivity.
  destruct (qs_filter self objects kwargs) as [[| o [| o' found]] | []];
    simpl; reflexivity.
Qed.

Lemma obj_get_no_auth_check_trace (request : request) (kwargs : dict)
    (c : store) :
  trace (obj_get_no_auth_check self request kwargs c)
  = match get_object_list self request with
    | Ret _ => [CallFilter kwargs]
    | Raise _ => []
    end.
Proof.
  unfold obj_get_no_auth_check. run_unfold.
  destruct (get_object_list self request) as [objects | []]; simpl;
    try reflexivity.
  destruct (qs_filter self objects kwargs) as [[| o [| o' found]] | []];
    simpl; reflexivity.
Qed.

Lemma splat_absent (named : list string) (d : dict) (c : store) :
  Forall (λ k, d !! k = None) named →
  splat named d c = Run (Ret d) c [].
Proof.
  intros Habsent. unfold splat.
  rewrite bool_decide_eq_false_2; [reflexivity |].
  intros Hex. apply Exists_exists in Hex as (k & Hk & [v Hv]).
  rewrite Forall_forall in Habsent. specialize (Habsent k Hk). congruence.
Qed.

Lemma get_via_uri_no_auth_check_run (uri : string) (request : request)
    (resolved : dict) (c : store) :
  resolve self (chomp_uri self uri) = Ret resolved →
  resolved !! "request" = None →
  get_via_uri_no_auth_check self uri request c
  = obj_get_no_auth_check self request resolved c.
Proof.
  intros Hresolve Hrequest.
  unfold get_via_uri_no_auth_check, get_via_uri_resolver,
    remove_api_resource_names.
  unfold mbind, M_bind, bind, try_except, lift. rewrite Hresolve. simpl.
  rewrite dict_copy_id.
  rewrite splat_absent by (by repeat constructor). simpl.
  by destruct (obj_get_no_auth_check self request resolved c).
Qed.

End NoAuthCheck.

(** C10: [obj_get_no_auth_check] hands its kwargs to [filter] as they are,
    and [get_via_uri_no_auth_check] gives it the resolved kwargs of the uri
    as they are: what the resolver put under ['api_name'],
    ['resource_name'] or any other key is in the kwargs of the [filter]
    call. *)
Theorem no_auth_check_keeps_kwargs (self : Framework) (uri : string)
    (request : request) (kwargs resolved : dict) (c : store) :
  resolve self (chomp_uri self uri) = Ret resolved →
  resolved !! "request" = None →
  trace (obj_get_no_auth_check self request kwargs c)
  = match get_object_list self request with
    | Ret _ => [CallFilter kwargs]
    | Raise _ => []
    end
  ∧ get_via_uri_no_auth_check self uri request c
    = obj_get_no_auth_check self request resolved c
  ∧ trace (get_via_uri_no_auth_check self uri request c)
    = match get_object_list self request with
      | Ret _ => [CallFilter resolved]
      | Raise _ => []
      end.
Proof.
  intros Hresolve Hrequest.
  split; [apply obj_get_no_auth_check_trace |].
  rewrite (get_via_uri_no_auth_check_run self uri request resolved c)
    by assumption.
  split; [reflexivity | apply obj_get_no_auth_check_trace].
Qed.

Lemma no_auth_check_keeps_kwargs_witness :
  let self := Demo.installation [Demo.entry 1] true in
  Demo.resolved !! "api_name" = Some (VStr "v1")
  ∧ Demo.resolved !! "resource_name" = Some (VStr "user")
  ∧ trace (get_via_uri_no_auth_check self "/api/v1/user/1/" NoRequest ∅)
    = [CallFilter Demo.resolved].
Proof.
  split; [reflexivity |]. split; [reflexivity |].
  apply (no_auth_check_keeps_kwargs
           (Demo.installation [Demo.entry 1] true)
           "/api/v1/user/1/" NoRequest ∅ Demo.resolved ∅);
    reflexivity.
Defined.

(** ** Mismatched lookup values *)

Section ValueErrors.

Context (self : Framework).

(** The outcome of [obj_get], from the outcomes of the calls it makes. *)
Lemma obj_get_result (bundle : bundle) (kwargs : dict) (c : store) :
  result (obj_get self bundle kwargs c)
  = on_value_error NotFound
      (and_then (get_object_list self (b_request bundle))
         (λ objects,
            and_then
              (qs_filter self objects (real_remove_api_resource_names kwargs))
              (λ found,
                 match found with
                 | [] => Raise ObjectDoesNotExist
                 | [o] =>
                     and_then
                       (authorized_read_detail self [o] (set_obj bundle o))
                       (λ _, Ret o)
                 | _ :: _ :: _ => Raise MultipleObjectsReturned
                 end))).
Proof.
  unfold obj_get. run_unfold.
  destruct (get_object_list self (b_request bundle)) as [objects | []];
    simpl; try reflexivity.
  destruct (qs_filter self objects _) as [[| o [| o' found]] | []];
    simpl; try reflexivity.
  destruct (authorized_read_detail self [o] (set_obj bundle o)) as [| []];
    reflexivity.
Qed.



End ValueErrors.



(** ** Detail lookups *)

Section Detail.

Context (self : Framework).

(** [get_detail] on a lookup that is not answered by the cache: the
    response is made from the outcome of [obj_get] on the basic bundle. *)
Lemma get_detail_on_miss (request : request) (kwargs : dict) (c : store) :
  kwargs !! "child_object" = None →
  kwargs !! "bundle" = None →
  cache_get self c
    (generate_cache_key self "detail"
       (real_remove_api_resource_names kwargs)) = VNone →
  result (get_detail self request kwargs c)
  = detail_response self request
      (result (obj_get self (build_bundle self VNone request) kwargs c)).
Proof.
  intros Hchild Hbundle Hmiss.
  assert (Hr : result (cached_obj_get self (build_bundle self VNone request)
                         kwargs c)
               = result (obj_get self (build_bundle self VNone request)
                           kwargs c)).
  { rewrite cached_obj_get_run, Hmiss. simpl.
    by destruct (result (obj_get self _ kwargs c)). }
  unfold get_detail, remove_api_resource_names.
  rewrite Hchild, dict_copy_id.
  unfold mbind, M_bind, bind, try_except.
  rewrite splat_absent by (by repeat constructor).
  cbn [result cache_after trace]. rewrite <- Hr.
  destruct (cached_obj_get self _ kwargs c) as [[obj | e] c' t]; simpl.
  - unfold detail_response, serialize, lift, ret, raise.
    destruct (full_dehydrate self _) as [b |]; simpl; [| reflexivity].
    destruct (alter_detail_data_to_serialize self request b) as [b' |];
      simpl; [| reflexivity].
    by destruct (create_response self request b').
  - destruct e; reflexivity.
Qed.

End Detail.

(** C2, as the code has it: when the [filter] call of [obj_get] returns,
    no match is [DoesNotExist], more than one is [MultipleObjectsReturned],
    and exactly one match is checked by [authorized_read_detail] and
    returned when the check passes; [get_detail], on a lookup the cache
    does not answer, serializes the object [obj_get] returns into the
    response and turns [DoesNotExist] into [HttpNotFound] and
    [MultipleObjectsReturned] into [HttpMultipleChoices]. *)
Theorem detail_lookup_outcomes (self : Framework) (request : request)
    (kwargs : dict) (c : store) (objects found : queryset) :
  let bundle := build_bundle self VNone request in
  get_object_list self (b_request bundle) = Ret objects →
  qs_filter self objects (real_remove_api_resource_names kwargs) = Ret found →
  kwargs !! "child_object" = None →
  kwargs !! "bundle" = None →
  cache_get self c
    (generate_cache_key self "detail"
       (real_remove_api_resource_names kwargs)) = VNone →
  match found with
  | [] =>
      result (obj_get self bundle kwargs c) = Raise ObjectDoesNotExist
      ∧ result (get_detail self request kwargs c) = Ret HttpNotFound
  | [o] =>
      match authorized_read_detail self [o] (set_obj bundle o) with
      | Ret _ =>
          result (obj_get self bundle kwargs c) = Ret o
          ∧ result (get_detail self request kwargs c)
            = serialize self request o
      | Raise e =>
          result (obj_get self bundle kwargs c)
          = on_value_error NotFound (Raise e)
      end
  | _ :: _ :: _ =>
      result (obj_get self bundle kwargs c) = Raise MultipleObjectsReturned
      ∧ result (get_detail self request kwargs c) = Ret HttpMultipleChoices
  end.
Proof.
  intros bundle Hlist Hfilter Hchild Hbundle Hmiss.
  rewrite get_detail_on_miss by assumption. fold bundle.
  rewrite obj_get_result, Hlist. simpl. rewrite Hfilter. simpl.
  destruct found as [| o [| o' found]]; simpl; [done | | done].
  by destruct (authorized_read_detail self [o] (set_obj bundle o)).
Qed.

Lemma detail_lookup_outcomes_witness :
  let self := Demo.installation [Demo.entry 1; Demo.entry 2] true in
  let kwargs : dict := {[ "pk" := VInt 2 ]} in
  result (obj_get self (build_bundle self VNone Demo.get) kwargs ∅)
  = Ret (Demo.entry 2)
  ∧ result (get_detail self Demo.get kwargs ∅)
    = Ret (HttpResponse 200 (Bundle (Demo.entry 2) ∅ Demo.get)).
Proof.
  exact (detail_lookup_outcomes
           (Demo.installation [Demo.entry 1; Demo.entry 2] true)
           Demo.get {[ "pk" := VInt 2 ]} ∅
           [Demo.entry 1; Demo.entry 2] [Demo.entry 2]
           eq_refl eq_refl eq_refl eq_refl eq_refl).
Defined.

(** C2 as the specification states it fails: exactly one object matches, the
    read-detail authorization refuses it, and neither [obj_get] returns
    the object nor [get_detail] a response. *)
Lemma detail_lookup_refused :
  let self := Demo.installation [Demo.entry 1; Demo.entry 2] false in
  let kwargs : dict := {[ "pk" := VInt 2 ]} in
  let bundle := build_bundle self VNone Demo.get in
  and_then (get_object_list self (b_request bundle))
    (λ objects,
       qs_filter self objects (real_remove_api_resource_names kwargs))
  = Ret [Demo.entry 2]
  ∧ result (obj_get self bundle kwargs ∅) = Raise ImmediateHttpResponse
  ∧ result (obj_get self bundle kwargs ∅) ≠ Ret (Demo.entry 2)
  ∧ result (get_detail self Demo.get kwargs ∅) = Raise ImmediateHttpResponse.
Proof.
  simpl. split; [vm_compute; reflexivity |].
  split; [vm_compute; reflexivity |].
  split; [vm_compute; discriminate | vm_compute; reflexivity].
Qed.

(** ** Nested dispatch to a collection *)

Section NestedList.

Context (self : Framework).

(** Following the relation does not touch the cache and calls nothing. *)
Lemma nested_manager_run (field : nested_field) (obj : pyval) (c : store) :
  nested_manager field obj c = Run (result (nested_manager field obj ∅)) c [].
Proof.
  unfold nested_manager, try_except.
  destruct (attribute field) as [name | f |]; simpl; try reflexivity.
  unfold lift. destruct (f obj) as [v | []]; reflexivity.
Qed.


End NestedList.



(** ** The pattern of detail identifiers *)

Section Matching.

Import Regex.

Local Open Scope string_scope.














End Matching.



(** * Further properties of the code *)

(** ** Stripping, composed *)

Lemma real_remove_insert (d : dict) (k : string) (v : pyval) :
  k ∈ removed_keys →
  real_remove_api_resource_names (<[k := v]> d)
  = real_remove_api_resource_names d.
Proof.
  intros Hk. apply map_eq. intros i. rewrite !real_remove_lookup.
  case_bool_decide as Hi; [reflexivity |].
  apply lookup_insert_ne. intros ->. contradiction.
Qed.

(** X1: stripping twice is stripping once, and the copying
    [remove_api_resource_names] changes nothing before or after it: the
    wrappers that strip and then call a method that strips again hand on
    the same dictionary. *)
Theorem stripping_is_idempotent (d : dict) :
  real_remove_api_resource_names (real_remove_api_resource_names d)
  = real_remove_api_resource_names d
  ∧ real_remove_api_resource_names (remove_api_resource_names d)
    = real_remove_api_resource_names d
  ∧ remove_api_resource_names (real_remove_api_resource_names d)
    = real_remove_api_resource_names d.
Proof.
  split; [apply real_remove_idempotent |].
  unfold remove_api_resource_names. by rewrite !dict_copy_id.
Qed.

(** X2: [real_remove_api_resource_names] returns its argument exactly when
    the argument has none of the seven keys. *)
Theorem stripping_fixes_clean_kwargs (d : dict) :
  real_remove_api_resource_names d = d
  ↔ Forall (λ k, d !! k = None) removed_keys.
Proof.
  split.
  - intros Hfix. rewrite <- Hfix. apply real_remove_stripped.
  - intros Hclean. apply map_eq. intros k. rewrite real_remove_lookup.
    case_bool_decide as Hk; [| reflexivity].
    rewrite Forall_forall in Hclean. symmetry. by apply Hclean.
Qed.

(** X3: what [dispatch_nested] adds to the kwargs is what stripping takes
    away again; a lookup under a parent and a direct lookup with the same
    remaining kwargs are therefore cached under the same key. *)
Theorem stripping_forgets_nested_bookkeeping (self : Framework)
    (nested_name parent_resource parent_object related : pyval)
    (kwargs : dict) :
  real_remove_api_resource_names
    (<["related_manager" := related]>
       (nested_bookkeeping nested_name parent_resource parent_object kwargs))
  = real_remove_api_resource_names kwargs
  ∧ real_remove_api_resource_names
      (<["child_object" := related]>
         (nested_bookkeeping nested_name parent_resource parent_object
            kwargs))
    = real_remove_api_resource_names kwargs
  ∧ generate_cache_key self "detail"
      (real_remove_api_resource_names
         (nested_bookkeeping nested_name parent_resource parent_object
            kwargs))
    = generate_cache_key self "detail"
        (real_remove_api_resource_names kwargs).
Proof.
  assert (Hbook : real_remove_api_resource_names
                    (nested_bookkeeping nested_name parent_resource
                       parent_object kwargs)
                  = real_remove_api_resource_names kwargs).
  { unfold nested_bookkeeping.
    rewrite !real_remove_insert; [reflexivity | ..];
      apply removed_keys_elem; tauto. }
  repeat split.
  - rewrite real_remove_insert; [exact Hbook |].
    apply removed_keys_elem; tauto.
  - rewrite real_remove_insert; [exact Hbook |].
    apply removed_keys_elem; tauto.
  - by rewrite Hbook.
Qed.

(** ** The registry of nested fields and the routes *)

(** X4: the metaclass registers exactly the attributes of the [Nested]
    class whose name does not start with an underscore, each under its
    name with its field. *)
Theorem nested_registry_is_public_part (nested_class : gmap string nested_field)
    (field_name : string) :
  nested_fields nested_class !! field_name
  = if is_public field_name then nested_class !! field_name else None.
Proof.
  apply option_eq. intros field. unfold nested_fields.
  rewrite map_lookup_filter_Some. simpl.
  destruct (is_public field_name).
  - split; [by intros [Hfield _] | by intros Hfield].
  - split; [intros [_ Hpublic]; discriminate | discriminate].
Qed.

Lemma nested_urls_length (self : Framework) :
  length (nested_urls self) = size (_nested self).
Proof. unfold nested_urls. by rewrite !length_fmap, length_map_to_list. Qed.

(** X5: the nested routes are the routes of the registered names, one
    for each: a name is registered exactly when its route is among them,
    and there are as many routes as registered names. *)
Theorem nested_urls_are_registered_names (self : Framework) (u : url) :
  (u ∈ nested_urls self
   ↔ ∃ nested_name, is_Some (_nested self !! nested_name)
                    ∧ u = get_nested_url self nested_name)
  ∧ length (nested_urls self) = size (_nested self).
Proof.
  split.
  - unfold nested_urls. rewrite list_elem_of_fmap. split.
    + intros (n & -> & Hn). exists n. split; [| reflexivity].
      apply list_elem_of_fmap in Hn as ([n' field] & -> & Hin).
      apply elem_of_map_to_list in Hin. by exists field.
    + intros (n & [field Hfield] & ->). exists n. split; [reflexivity |].
      apply list_elem_of_fmap. exists (n, field). split; [reflexivity |].
      by apply elem_of_map_to_list.
  - apply nested_urls_length.
Qed.

(** X6: a resource answers to the routes its class prepends, four base
    routes, one route for each registered nested name, and one included
    group of detail actions when it declares any; there is no such group
    exactly when [detail_actions] returns the empty list, as the default
    does. *)
Theorem urls_count (self : Framework) :
  length (urls self)
  = (length (prepend_urls self) + 4 + size (_nested self)
     + match self_detail_actions self with [] => 0 | _ :: _ => 1 end)%nat
  ∧ (detail_actions_urlpatterns self = [] ↔ self_detail_actions self = [])
  ∧ match override_detail_actions self with
    | None => self_detail_actions self = []
    | Some actions => self_detail_actions self = actions
    end.
Proof.
  split; [| split].
  - unfold urls. rewrite !length_app, nested_urls_length.
    unfold detail_actions_urlpatterns.
    destruct (self_detail_actions self); simpl; lia.
  - unfold detail_actions_urlpatterns.
    by destruct (self_detail_actions self).
  - unfold self_detail_actions. by destruct (override_detail_actions self).
Qed.

Lemma append_cons (c : ascii) (s1 s2 : string) :
  (String c s1 ++ s2 = String c (s1 ++ s2))%string.
Proof. reflexivity. Qed.

Lemma prefix_append (s1 s2 s3 : string) :
  String.prefix (s1 ++ s2) (s1 ++ s3) = String.prefix s2 s3.
Proof.
  induction s1 as [| c s1 IH]; [reflexivity |].
  rewrite !append_cons. simpl.
  destruct (Ascii.ascii_dec c c); [exact IH | congruence].
Qed.

Lemma prefix_append_nil (s1 s2 : string) :
  String.prefix s1 (s1 ++ s2) = true.
Proof.
  induction s1 as [| c s1 IH]; [by destruct s2 |].
  rewrite append_cons. simpl.
  destruct (Ascii.ascii_dec c c); [exact IH | congruence].
Qed.

(** X7: every route that the class itself generates (base, nested and
    detail actions) starts by matching the resource's own name as the
    group [resource_name]. *)
Theorem own_routes_start_with_resource_name (self : Framework) :
  Forall (λ u, String.prefix
                 ("^(?P<resource_name>" ++ resource_name self ++ ")")%string
                 (url_regex u) = true)
         (base_urls self ++ nested_urls self
          ++ detail_actions_urlpatterns self).
Proof.
  assert (Hstart : ∀ rest : string,
             String.prefix
               ("^(?P<resource_name>" ++ resource_name self ++ ")")%string
               ("^(?P<resource_name>" ++ resource_name self
                ++ String ")" rest)%string = true).
  { intros rest. rewrite !prefix_append. simpl.
    destruct (Ascii.ascii_dec ")" ")"); [by destruct rest | congruence]. }
  rewrite !Forall_app. split; [| split].
  - unfold base_urls.
    repeat first [apply Forall_nil_2 | apply Forall_cons_2]; simpl.
    + exact (Hstart (trailing_slash self ++ "$")%string).
    + apply (Hstart ("/schema" ++ _)%string).
    + apply (Hstart ("/set/(?P<" ++ _)%string).
    + apply (Hstart ("/(?P<" ++ _)%string).
  - apply Forall_forall. intros u Hu. unfold nested_urls in Hu.
    apply list_elem_of_fmap in Hu as (n & -> & _). simpl.
    apply (Hstart ("/(?P<" ++ _)%string).
  - unfold detail_actions_urlpatterns.
    destruct (self_detail_actions self); constructor; [| constructor].
    simpl. apply (Hstart ("/(?P<" ++ _)%string).
Qed.

(** ** Resolving a uri *)

Lemma string_from_append (q t rest : string) :
  string_from (String.length q) ((q ++ t) ++ rest)%string = (t ++ rest)%string.
Proof.
  induction q as [| c q IH]; [reflexivity |].
  rewrite !append_cons. exact IH.
Qed.

Lemma length_append_one (q : string) (ch : ascii) :
  String.length (q ++ String ch "")%string = S (String.length q).
Proof.
  induction q as [| c q IH]; [reflexivity |].
  rewrite append_cons. simpl. by rewrite IH.
Qed.

(** X8: when the uri starts with the script prefix, the prefix is cut off
    up to its last character, which stays as the first character of what
    is resolved (the slash, for a prefix that ends in one); an uri that
    does not start with the prefix is resolved as it is. *)
Theorem chomp_uri_cases (self : Framework) :
  (∀ (q : string) (ch : ascii) (rest : string),
     get_script_prefix self = (q ++ String ch "")%string →
     chomp_uri self ((q ++ String ch "") ++ rest)%string = String ch rest)
  ∧ (∀ uri, String.prefix (get_script_prefix self) uri = false →
            chomp_uri self uri = uri).
Proof.
  split.
  - intros q ch rest Hprefix. unfold chomp_uri. rewrite Hprefix.
    rewrite prefix_append_nil, length_append_one.
    replace (String.eqb (q ++ String ch "") "") with false
      by (by destruct q).
    simpl. rewrite Nat.sub_0_r. apply string_from_append.
  - intros uri Hno. unfold chomp_uri. rewrite Hno.
    by rewrite andb_false_r.
Qed.

Lemma chomp_uri_cases_witness :
  let self := Demo.installation [] true in
  chomp_uri self "/api/v1/user/1/" = "/api/v1/user/1/"
  ∧ chomp_uri self "api/v1/user/1/" = "api/v1/user/1/".
Proof.
  split.
  - exact (proj1 (chomp_uri_cases (Demo.installation [] true))
             "" "/"%char "api/v1/user/1/" eq_refl).
  - exact (proj2 (chomp_uri_cases (Demo.installation [] true))
             "api/v1/user/1/" eq_refl).
Defined.

Section Resolving.

Context (self : Framework).

Lemma get_via_uri_resolver_run (uri : string) (c : store) :
  get_via_uri_resolver self uri c
  = Run match resolve self (chomp_uri self uri) with
        | Raise Resolver404 => Raise NotFound
        | o => o
        end c [].
Proof.
  unfold get_via_uri_resolver, try_except, lift.
  destruct (resolve self (chomp_uri self uri)) as [kwargs | []]; reflexivity.
Qed.

Lemma splat_present (named : list string) (d : dict) (c : store) :
  Exists (λ k, is_Some (d !! k)) named →
  splat named d c = Run (Raise TypeError) c [].
Proof. intros Hex. unfold splat. by rewrite bool_decide_eq_true_2. Qed.

Lemma splat_run (named : list string) (d : dict) (c : store) :
  splat named d c = Run (Ret d) c []
  ∨ splat named d c = Run (Raise TypeError) c [].
Proof. unfold splat. case_bool_decide; [by right | by left]. Qed.

End Resolving.

(** X9: [get_via_uri_no_auth_check] makes no query for an uri that does
    not resolve or resolves to kwargs with the key ['request']: the first
    is [NotFound], the second a [TypeError], and any other failure of the
    resolver comes out as it is. *)
Theorem get_via_uri_no_auth_check_failures (self : Framework) (uri : string)
    (request : request) (c : store) :
  (resolve self (chomp_uri self uri) = Raise Resolver404 →
   get_via_uri_no_auth_check self uri request c = Run (Raise NotFound) c [])
  ∧ (∀ resolved,
       resolve self (chomp_uri self uri) = Ret resolved →
       is_Some (resolved !! "request") →
       get_via_uri_no_auth_check self uri request c
       = Run (Raise TypeError) c [])
  ∧ (∀ e, resolve self (chomp_uri self uri) = Raise e →
          e ≠ Resolver404 →
          get_via_uri_no_auth_check self uri request c = Run (Raise e) c []).
Proof.
  unfold get_via_uri_no_auth_check, mbind, M_bind, bind.
  rewrite get_via_uri_resolver_run.
  split; [| split].
  - intros ->. reflexivity.
  - intros resolved -> Hrequest. cbn [result cache_after trace].
    unfold remove_api_resource_names. rewrite dict_copy_id.
    rewrite splat_present; [reflexivity |].
    by apply Exists_cons_hd.
  - intros e -> Hne. by destruct e.
Qed.

Lemma get_via_uri_no_auth_check_failures_witness :
  get_via_uri_no_auth_check (Demo.installation [Demo.entry 1] true)
    "/api/v1/entry/" NoRequest ∅
  = Run (Raise NotFound) ∅ [].
Proof.
  exact (proj1 (get_via_uri_no_auth_check_failures
                  (Demo.installation [Demo.entry 1] true)
                  "/api/v1/entry/" NoRequest ∅) eq_refl).
Defined.

(** X10: [get_nested_via_uri] calls [obj_get] with keyword arguments only,
    so for an uri whose resolved kwargs have no key ['bundle'] it ends in
    a [TypeError] without any query; for an uri that does not resolve it
    ends in [NotFound]. *)
Theorem get_nested_via_uri_needs_bundle (self : Framework) (uri : string)
    (parent_resource parent_object nested_name : pyval) (request : request)
    (c : store) :
  (resolve self (chomp_uri self uri) = Raise Resolver404 →
   get_nested_via_uri self uri parent_resource parent_object nested_name
     request c
   = Run (Raise NotFound) c [])
  ∧ (∀ resolved,
       resolve self (chomp_uri self uri) = Ret resolved →
       resolved !! "bundle" = None →
       get_nested_via_uri self uri parent_resource parent_object nested_name
         request c
       = Run (Raise TypeError) c []).
Proof.
  unfold get_nested_via_uri, mbind, M_bind, bind.
  rewrite get_via_uri_resolver_run.
  split.
  - intros ->. reflexivity.
  - intros resolved -> Hbundle. cbn [result cache_after trace].
    unfold remove_api_resource_names. rewrite dict_copy_id.
    destruct (splat_run
                ["nested_name"; "parent_resource"; "parent_object"; "request"]
                resolved c) as [-> | ->]; [| reflexivity].
    cbn [result cache_after trace].
    rewrite !lookup_insert_ne, Hbundle by discriminate. reflexivity.
Qed.

Lemma get_nested_via_uri_needs_bundle_witness :
  get_nested_via_uri (Demo.installation [Demo.entry 1] true)
    "/api/v1/user/1/" (VResource "user") Demo.user1 (VStr "entries")
    Demo.get ∅
  = Run (Raise TypeError) ∅ [].
Proof.
  exact (proj2 (get_nested_via_uri_needs_bundle
                  (Demo.installation [Demo.entry 1] true)
                  "/api/v1/user/1/" (VResource "user") Demo.user1
                  (VStr "entries") Demo.get ∅)
           Demo.resolved eq_refl eq_refl).
Defined.

(** ** The two detail lookups *)

Section Lookups.

Context (self : Framework).

Lemma single_ret (found : queryset) (o : pyval) :
  single found = Ret o ↔ found = [o].
Proof.
  destruct found as [| o' [| o'' found]]; simpl; split;
    intros H; try discriminate; congruence.
Qed.

Lemma obj_get_list_cache (bundle : bundle) (kwargs : dict) (c : store) :
  cache_after (obj_get_list self bundle kwargs c) = c.
Proof.
  unfold obj_get_list. run_unfold.
  destruct (build_filters self _) as [applicable |]; simpl; [| reflexivity].
  destruct (apply_filters self _ applicable) as [base | []]; simpl;
    try reflexivity.
  destruct (kwargs !! "related_manager") as [manager |]; simpl.
  - destruct (core_filters manager) as [core | []]; simpl; try reflexivity.
    destruct (qs_filter self base core) as [base' | []]; simpl;
      try reflexivity.
    destruct (authorized_read_list self base' bundle) as [| []]; reflexivity.
  - destruct (authorized_read_list self base bundle) as [| []]; reflexivity.
Qed.

Lemma obj_get_no_auth_check_cache (request : request) (kwargs : dict)
    (c : store) :
  cache_after (obj_get_no_auth_check self request kwargs c) = c.
Proof.
  unfold obj_get_no_auth_check. run_unfold.
  destruct (get_object_list self request) as [objects | []]; simpl;
    try reflexivity.
  destruct (qs_filter self objects kwargs) as [[| o [| o' found]] | []];
    simpl; reflexivity.
Qed.

End Lookups.

(** X11: [obj_get] is [obj_get_no_auth_check] on the stripped kwargs,
    followed by the read-detail authorization of the object found: an
    exception of the unchecked lookup is the exception of [obj_get], and an
    object it finds is returned when [authorized_read_detail] accepts it. *)
Theorem obj_get_is_checked_lookup (self : Framework) (bundle : bundle)
    (kwargs : dict) (c : store) :
  result (obj_get self bundle kwargs c)
  = match result (obj_get_no_auth_check self (b_request bundle)
                    (real_remove_api_resource_names kwargs) c) with
    | Ret o =>
        on_value_error NotFound
          (and_then (authorized_read_detail self [o] (set_obj bundle o))
             (λ _, Ret o))
    | Raise e => Raise e
    end.
Proof.
  rewrite obj_get_result, obj_get_no_auth_check_result.
  destruct (get_object_list self (b_request bundle)) as [objects | []];
    simpl; try reflexivity.
  destruct (qs_filter self objects _) as [[| o [| o' found]] | []];
    simpl; reflexivity.
Qed.

(** X12: [obj_get] returns an object only when it is the one match of
    the stripped kwargs and [authorized_read_detail] accepted it, and
    [obj_get_no_auth_check] only when it is the one match of its kwargs. *)
Theorem lookups_return_the_single_match (self : Framework) (bundle : bundle)
    (request : request) (kwargs : dict) (c : store) (o : pyval) :
  (result (obj_get self bundle kwargs c) = Ret o
   ↔ ∃ objects,
       get_object_list self (b_request bundle) = Ret objects
       ∧ qs_filter self objects (real_remove_api_resource_names kwargs)
         = Ret [o]
       ∧ authorized_read_detail self [o] (set_obj bundle o) = Ret tt)
  ∧ (result (obj_get_no_auth_check self request kwargs c) = Ret o
     ↔ ∃ objects,
         get_object_list self request = Ret objects
         ∧ qs_filter self objects kwargs = Ret [o]).
Proof.
  rewrite obj_get_result, obj_get_no_auth_check_result. split; split.
  - destruct (get_object_list self (b_request bundle)) as [objects | []];
      simpl; try discriminate.
    destruct (qs_filter self objects _) as [[| o' [| o'' found]] | []]
      eqn:Hfilter; simpl; try discriminate.
    destruct (authorized_read_detail self [o'] (set_obj bundle o'))
      as [[] | []] eqn:Hauth; simpl; try discriminate.
    intros [= ->]. by exists objects.
  - intros (objects & -> & Hfilter & Hauth). simpl. rewrite Hfilter. simpl.
    by rewrite Hauth.
  - destruct (get_object_list self request) as [objects | []]; simpl;
      try discriminate.
    destruct (qs_filter self objects kwargs) as [[| o' [| o'' found]] | []]
      eqn:Hfilter; simpl; try discriminate.
    intros [= ->]. by exists objects.
  - intros (objects & -> & Hfilter). simpl. by rewrite Hfilter.
Qed.

(** ** The cache *)

(** X13: the lookups do not change the cache, except [cached_obj_get]
    when the cache has no entry and [obj_get] returns an object, which is
    then stored under the key of the stripped kwargs; a lookup that fails
    stores nothing. *)
Theorem cache_changes_only_after_a_fetch (self : Framework) (bundle : bundle)
    (request : request) (kwargs : dict) (c : store) :
  let key := generate_cache_key self "detail"
               (real_remove_api_resource_names kwargs) in
  cache_after (obj_get self bundle kwargs c) = c
  ∧ cache_after (obj_get_no_auth_check self request kwargs c) = c
  ∧ cache_after (obj_get_list self bundle kwargs c) = c
  ∧ cache_after (cached_obj_get self bundle kwargs c)
    = (if is_none (cache_get self c key) then
         match result (obj_get self bundle kwargs c) with
         | Ret o => cache_set self c key o
         | Raise _ => c
         end
       else c)
  ∧ Forall (λ ev, is_cache_write ev = false)
      (trace (obj_get self bundle kwargs c)
       ++ trace (obj_get_no_auth_check self request kwargs c)
       ++ trace (obj_get_list self bundle kwargs c)).
Proof.
  intros key.
  split; [apply obj_get_cache |].
  split; [apply obj_get_no_auth_check_cache |].
  split; [apply obj_get_list_cache |].
  split.
  - rewrite cached_obj_get_run. fold key.
    destruct (is_none (cache_get self c key)); [| reflexivity].
    by destruct (result (obj_get self bundle kwargs c)).
  - rewrite obj_get_trace, obj_get_no_auth_check_trace.
    destruct (obj_get_list_trace self bundle kwargs c)
      as (rest & -> & Hrest).
    rewrite !Forall_app. split; [| split].
    + destruct (get_object_list self (b_request bundle));
        repeat constructor.
    + destruct (get_object_list self request); repeat constructor.
    + constructor; [reflexivity |].
      eapply Forall_impl; [exact Hrest |].
      intros [] Hev; simpl in *; done.
Qed.

(** X14: once [cached_obj_get] has returned under a cache that gives back
    what it was given, the same lookup again asks the cache and nothing
    else: no query is made, the cache is left as it is, and the result is
    the bundle of the call. *)
Theorem cached_obj_get_again_makes_no_query (self : Framework)
    (bundle bundle' : bundle) (kwargs : dict) (c : store) (o : pyval) :
  let stripped := real_remove_api_resource_names kwargs in
  let key := generate_cache_key self "detail" stripped in
  let first := cached_obj_get self bundle kwargs c in
  (∀ v, is_none v = false → cache_get self (cache_set self c key v) key = v) →
  result first = Ret o →
  is_none o = false →
  cached_obj_get self bundle' kwargs (cache_after first)
  = Run (Ret (bundle_val bundle')) (cache_after first)
        [CallGenerateCacheKey stripped; CacheGet key].
Proof.
  intros stripped key first Hkeeps Hfirst Ho.
  assert (Hhit : is_none (cache_get self (cache_after first) key) = false).
  { unfold first in *. rewrite cached_obj_get_run in *.
    fold stripped key in Hfirst |- *.
    destruct (is_none (cache_get self c key)) eqn:Hmiss; [| exact Hmiss].
    destruct (result (obj_get self bundle kwargs c)) as [o' |];
      [| discriminate].
    simpl in *. injection Hfirst as ->. by rewrite Hkeeps. }
  rewrite cached_obj_get_run. fold stripped key. by rewrite Hhit.
Qed.

Lemma cached_obj_get_again_makes_no_query_witness :
  let self := Demo.installation [Demo.entry 1; Demo.entry 2] true in
  let kwargs : dict := {[ "pk" := VInt 2 ]} in
  let first := cached_obj_get self Demo.basic_bundle kwargs ∅ in
  result first = Ret (Demo.entry 2)
  ∧ trace (cached_obj_get self Demo.basic_bundle kwargs (cache_after first))
    = [CallGenerateCacheKey kwargs; CacheGet "detail:pk"].
Proof.
  intros self kwargs first. split; [reflexivity |].
  assert (Hkeeps : ∀ v, is_none v = false →
            cache_get self
              (cache_set self ∅
                 (generate_cache_key self "detail"
                    (real_remove_api_resource_names kwargs)) v)
              (generate_cache_key self "detail"
                 (real_remove_api_resource_names kwargs)) = v).
  { intros v _. simpl. by rewrite lookup_insert_eq. }
  exact (f_equal trace
           (cached_obj_get_again_makes_no_query self Demo.basic_bundle
              Demo.basic_bundle kwargs ∅ (Demo.entry 2)
              Hkeeps eq_refl eq_refl)).
Defined.

(** ** The list lookup *)


(** X16: an exception of [build_filters], a [ValueError] included, leaves
    [obj_get_list] as it is and before any list query; when the filters
    are built, the list query on them is the next call. *)
Theorem obj_get_list_build_filters (self : Framework) (bundle : bundle)
    (kwargs : dict) (c : store) :
  let filters := obj_get_list_filters bundle kwargs in
  match build_filters self filters with
  | Raise e =>
      obj_get_list self bundle kwargs c
      = Run (Raise e) c [CallBuildFilters filters]
  | Ret applicable =>
      ∃ rest,
        trace (obj_get_list self bundle kwargs c)
        = CallBuildFilters filters :: CallApplyFilters applicable :: rest
  end.
Proof.
  intros filters. unfold obj_get_list. fold filters. run_unfold.
  destruct (build_filters self filters) as [applicable | e]; simpl;
    [| reflexivity].
  destruct (apply_filters self _ applicable) as [base | []]; simpl;
    try by eexists.
  destruct (kwargs !! "related_manager") as [manager |]; simpl.
  - destruct (core_filters manager) as [core | []]; simpl; try by eexists.
    destruct (qs_filter self base core) as [base' | []]; simpl;
      try by eexists.
    destruct (authorized_read_list self base' bundle) as [| []];
      by eexists.
  - destruct (authorized_read_list self base bundle) as [| []]; by eexists.
Qed.

(** X17: when the value under ['related_manager'] has no attribute
    [core_filters], [obj_get_list] runs the list query and then ends in
    an [AttributeError], without a second filter and without reaching the
    read-list authorization. *)
Theorem obj_get_list_needs_core_filters (self : Framework) (bundle : bundle)
    (kwargs : dict) (c : store) (manager : pyval) (applicable : dict)
    (base : queryset) :
  kwargs !! "related_manager" = Some manager →
  py_hasattr manager "core_filters" = false →
  build_filters self (obj_get_list_filters bundle kwargs) = Ret applicable →
  apply_filters self (b_request bundle) applicable = Ret base →
  obj_get_list self bundle kwargs c
  = Run (Raise AttributeError) c
        [CallBuildFilters (obj_get_list_filters bundle kwargs);
         CallApplyFilters applicable].
Proof.
  intros Hmanager Hattr Hbuild Hquery.
  assert (Hcore : core_filters manager = Raise AttributeError).
  { destruct manager as [| | | | cls attrs | |]; try reflexivity.
    simpl in *. apply bool_decide_eq_false in Hattr.
    destruct (attrs !! "core_filters") as [v |] eqn:Hv; [| reflexivity].
    exfalso. apply Hattr. by exists v. }
  unfold obj_get_list. run_unfold. rewrite Hbuild. simpl.
  rewrite Hquery, Hmanager. simpl. by rewrite Hcore.
Qed.

Lemma obj_get_list_needs_core_filters_witness :
  let self := Demo.installation [Demo.entry 1] true in
  let query_set := VObject "QuerySet" {[ "all" := VStr "<bound method all>" ]} in
  py_hasattr query_set "all" = true
  ∧ obj_get_list self Demo.basic_bundle {[ "related_manager" := query_set ]} ∅
    = Run (Raise AttributeError) ∅ [CallBuildFilters ∅; CallApplyFilters ∅].
Proof.
  split; [reflexivity |].
  exact (obj_get_list_needs_core_filters
           (Demo.installation [Demo.entry 1] true) Demo.basic_bundle
           {[ "related_manager" :=
                VObject "QuerySet" {[ "all" := VStr "<bound method all>" ]} ]}
           ∅ (VObject "QuerySet" {[ "all" := VStr "<bound method all>" ]})
           ∅ [Demo.entry 1] eq_refl eq_refl eq_refl eq_refl).
Defined.

(** ** Nested dispatch *)

Section Dispatch.

Context (self : Framework).

(** [dispatch_nested] up to the lookup of the parent object. *)
Lemma dispatch_nested_lookup (request : request) (kwargs : dict)
    (c c' : store) (t : list event) (n : string) (field : nested_field)
    (looked_up : outcome pyval) :
  is_authenticated self request = Ret tt →
  throttle_check self request = Ret tt →
  kwargs !! "nested_name" = Some (VStr n) →
  _nested self !! n = Some field →
  delete "nested_name" kwargs !! "bundle" = None →
  cached_obj_get self (build_bundle self VNone request)
    (delete "nested_name" kwargs) c = Run looked_up c' t →
  dispatch_nested self request kwargs c
  = match looked_up with
    | Raise ObjectDoesNotExist => Run (Ret HttpNotFound) c' t
    | Raise MultipleObjectsReturned => Run (Ret HttpMultipleChoices) c' t
    | Raise e => Run (Raise e) c' t
    | Ret obj =>
        let related := result (nested_manager field obj ∅) in
        let bookkeeping :=
          nested_bookkeeping (VStr n) (VResource (resource_name self)) obj
            (delete "nested_name" kwargs) in
        match related with
        | Raise e =>
            Run (Raise e) c' (t ++ [SetApiName (to_class field) (api_name self)])
        | Ret manager =>
            let dispatch_type :=
              if is_none manager || negb (py_hasattr manager "all")
              then "detail" else "list" in
            let child_kwargs :=
              if is_none manager || negb (py_hasattr manager "all")
              then <["child_object" := manager]> bookkeeping
              else delete (detail_uri_name self)
                     (<["related_manager" := manager]> bookkeeping) in
            Run (dispatch self (to_class field) dispatch_type request
                   child_kwargs) c'
                (t ++ [SetApiName (to_class field) (api_name self);
                       CallDispatch (to_class field) dispatch_type
                         child_kwargs])
        end
    end.
Proof.
  intros Hauth Hthrottle Hname Hfield Hbundle Hparent.
  unfold dispatch_nested, nested_getitem, remove_api_resource_names,
    nested_bookkeeping.
  rewrite Hname. unfold mbind, M_bind, bind, try_except.
  rewrite Hauth, Hthrottle.
  cbn -[cached_obj_get nested_manager splat dict_copy].
  rewrite Hfield.
  cbn -[cached_obj_get nested_manager splat dict_copy].
  rewrite dict_copy_id, splat_absent by (by repeat constructor).
  cbn -[cached_obj_get nested_manager]. rewrite Hparent.
  destruct looked_up as [obj | e].
  - cbn -[cached_obj_get nested_manager].
    rewrite nested_manager_run.
    destruct (result (nested_manager field obj ∅)) as [manager | e];
      cbn -[cached_obj_get nested_manager]; [| by rewrite ?app_nil_r].
    destruct (is_none manager || negb (py_hasattr manager "all"));
      cbn -[cached_obj_get nested_manager];
      destruct (dispatch self (to_class field) _ request _);
      cbn; by rewrite ?app_nil_r.
  - destruct e; cbn; by rewrite ?app_nil_r.
Qed.

Lemma cached_obj_get_never_dispatches (bundle : bundle) (kwargs : dict)
    (c : store) :
  Forall (λ ev, is_dispatch ev = false)
         (trace (cached_obj_get self bundle kwargs c)).
Proof.
  rewrite cached_obj_get_trace, obj_get_trace.
  repeat (apply Forall_cons_2; [reflexivity |]).
  destruct (is_none _); [| constructor].
  apply Forall_app. split.
  - destruct (get_object_list self (b_request bundle)); repeat constructor.
  - destruct (result _); repeat constructor.
Qed.

End Dispatch.

(** X18: once authentication and throttling have passed,
    [dispatch_nested] ends in a [KeyError], before any lookup, when the
    kwargs have no ['nested_name'], when the name is not registered, and so
    for every name that starts with an underscore. *)
Theorem dispatch_nested_unknown_relation (self : Framework)
    (request : request) (kwargs : dict) (c : store) :
  is_authenticated self request = Ret tt →
  throttle_check self request = Ret tt →
  (kwargs !! "nested_name" = None →
   dispatch_nested self request kwargs c = Run (Raise KeyError) c [])
  ∧ (∀ n, kwargs !! "nested_name" = Some (VStr n) →
          _nested self !! n = None →
          dispatch_nested self request kwargs c = Run (Raise KeyError) c [])
  ∧ (∀ n, kwargs !! "nested_name" = Some (VStr n) →
          is_public n = false →
          dispatch_nested self request kwargs c = Run (Raise KeyError) c []).
Proof.
  intros Hauth Hthrottle.
  assert (Hunknown : ∀ n, kwargs !! "nested_name" = Some (VStr n) →
            _nested self !! n = None →
            dispatch_nested self request kwargs c = Run (Raise KeyError) c []).
  { intros n Hname Hfield. unfold dispatch_nested, nested_getitem.
    rewrite Hname. unfold mbind, M_bind, bind.
    rewrite Hauth, Hthrottle. cbn. by rewrite Hfield. }
  split; [| split; [exact Hunknown |]].
  - intros Hname. unfold dispatch_nested. rewrite Hname.
    unfold mbind, M_bind, bind. by rewrite Hauth, Hthrottle.
  - intros n Hname Hprivate. apply (Hunknown n Hname).
    unfold _nested, nested_fields. apply map_lookup_filter_None. right.
    intros field _. simpl. by rewrite Hprivate.
Qed.

Lemma dispatch_nested_unknown_relation_witness :
  dispatch_nested (Demo.installation [Demo.user1] true) Demo.get
    (<["nested_name" := VStr "comments"]> {[ "pk" := VInt 1 ]}) ∅
  = Run (Raise KeyError) ∅ [].
Proof.
  exact (proj1 (proj2 (dispatch_nested_unknown_relation
                         (Demo.installation [Demo.user1] true) Demo.get
                         (<["nested_name" := VStr "comments"]>
                            {[ "pk" := VInt 1 ]}) ∅ eq_refl eq_refl))
           "comments" eq_refl eq_refl).
Defined.

(** X19: when the lookup of the parent object fails, [dispatch_nested]
    does not dispatch to the child resource: no parent is the response
    [HttpNotFound], more than one is [HttpMultipleChoices], and any other
    exception of the lookup is raised as it is. *)
Theorem dispatch_nested_parent_failure (self : Framework)
    (request : request) (kwargs : dict) (c c' : store) (t : list event)
    (n : string) (field : nested_field) (e : exn) :
  is_authenticated self request = Ret tt →
  throttle_check self request = Ret tt →
  kwargs !! "nested_name" = Some (VStr n) →
  _nested self !! n = Some field →
  delete "nested_name" kwargs !! "bundle" = None →
  cached_obj_get self (build_bundle self VNone request)
    (delete "nested_name" kwargs) c = Run (Raise e) c' t →
  dispatch_nested self request kwargs c
  = Run match e with
        | ObjectDoesNotExist => Ret HttpNotFound
        | MultipleObjectsReturned => Ret HttpMultipleChoices
        | _ => Raise e
        end c' t
  ∧ Forall (λ ev, is_dispatch ev = false)
           (trace (dispatch_nested self request kwargs c)).
Proof.
  intros Hauth Hthrottle Hname Hfield Hbundle Hparent.
  rewrite (dispatch_nested_lookup self request kwargs c c' t n field
             (Raise e)) by assumption.
  pose proof (cached_obj_get_never_dispatches self
                (build_bundle self VNone request)
                (delete "nested_name" kwargs) c) as Hquiet.
  rewrite Hparent in Hquiet. simpl in Hquiet.
  by destruct e.
Qed.

Lemma dispatch_nested_parent_failure_witness :
  result (dispatch_nested (Demo.installation [] true) Demo.get
            (<["nested_name" := VStr "entries"]> {[ "pk" := VInt 1 ]}) ∅)
  = Ret HttpNotFound.
Proof.
  pose (self := Demo.installation [] true).
  pose (kwargs := (<["nested_name" := VStr "entries"]> {[ "pk" := VInt 1 ]})
                  : dict).
  pose (looked_up := cached_obj_get self (build_bundle self VNone Demo.get)
                       (delete "nested_name" kwargs) ∅).
  assert (Hparent : looked_up
                    = Run (Raise ObjectDoesNotExist) (cache_after looked_up)
                          (trace looked_up))
    by (vm_compute; reflexivity).
  exact (f_equal result
           (proj1 (dispatch_nested_parent_failure self Demo.get kwargs ∅
                     (cache_after looked_up) (trace looked_up) "entries"
                     (NestedField "entry" (AttrStr "entries"))
                     ObjectDoesNotExist
                     eq_refl eq_refl eq_refl eq_refl eq_refl Hparent))).
Defined.

(** X20: when the relation followed on the parent object gives [None] or
    an object without [all], [dispatch_nested] dispatches to the child
    resource as a detail, with the value under ['child_object'] beside
    the parent's kwargs and the three keys that name the parent; nothing
    is removed from the parent's kwargs. *)
Theorem dispatch_nested_single_object (self : Framework) (request : request)
    (kwargs : dict) (c c' : store) (t : list event) (n : string)
    (field : nested_field) (obj related : pyval) :
  let child_kwargs : dict :=
    <["child_object" := related]>
      (nested_bookkeeping (VStr n) (VResource (resource_name self)) obj
         (delete "nested_name" kwargs)) in
  is_authenticated self request = Ret tt →
  throttle_check self request = Ret tt →
  kwargs !! "nested_name" = Some (VStr n) →
  _nested self !! n = Some field →
  delete "nested_name" kwargs !! "bundle" = None →
  cached_obj_get self (build_bundle self VNone request)
    (delete "nested_name" kwargs) c = Run (Ret obj) c' t →
  result (nested_manager field obj ∅) = Ret related →
  is_none related || negb (py_hasattr related "all") = true →
  dispatch_nested self request kwargs c
  = Run (dispatch self (to_class field) "detail" request child_kwargs) c'
        (t ++ [SetApiName (to_class field) (api_name self);
               CallDispatch (to_class field) "detail" child_kwargs])
  ∧ child_kwargs !! "child_object" = Some related
  ∧ ∀ k, k ∉ removed_keys → child_kwargs !! k = kwargs !! k.
Proof.
  intros child_kwargs Hauth Hthrottle Hname Hfield Hbundle Hparent Hrelated
    Hsingle.
  split; [| split].
  - rewrite (dispatch_nested_lookup self request kwargs c c' t n field
               (Ret obj)) by assumption.
    cbn zeta. by rewrite Hrelated, Hsingle.
  - apply lookup_insert_eq.
  - intros k Hk. unfold child_kwargs, nested_bookkeeping.
    rewrite removed_keys_elem in Hk.
    rewrite !lookup_insert_ne, lookup_delete_ne
      by (intros <-; apply Hk; tauto).
    reflexivity.
Qed.

Lemma dispatch_nested_single_object_witness :
  let parent := VObject "User" {[ "pk" := VInt 1 ]} in
  let self := Demo.installation [parent] true in
  let kwargs : dict := <["nested_name" := VStr "entries"]> {[ "pk" := VInt 1 ]} in
  last (trace (dispatch_nested self Demo.get kwargs ∅))
  = Some (CallDispatch "entry" "detail"
            (<["child_object" := VNone]>
               (nested_bookkeeping (VStr "entries") (VResource "user") parent
                  {[ "pk" := VInt 1 ]}))).
Proof.
  intros parent self kwargs.
  pose (looked_up := cached_obj_get self (build_bundle self VNone Demo.get)
                       (delete "nested_name" kwargs) ∅).
  assert (Hparent : looked_up
                    = Run (Ret parent) (cache_after looked_up)
                          (trace looked_up))
    by (vm_compute; reflexivity).
  destruct (dispatch_nested_single_object self Demo.get kwargs ∅
              (cache_after looked_up) (trace looked_up) "entries"
              (NestedField "entry" (AttrStr "entries")) parent VNone
              eq_refl eq_refl eq_refl eq_refl eq_refl Hparent eq_refl eq_refl)
    as [Hrun _].
  rewrite Hrun. vm_compute. reflexivity.
Defined.

(** ** Details *)

(** X21: with the key ['child_object'] in its kwargs, [get_detail] looks
    nothing up: it asks neither the cache nor the query layer nor the
    authorization, answers [HttpNotFound] when the value is [None] and
    serializes the value otherwise. *)
Theorem get_detail_of_child_object (self : Framework) (request : request)
    (kwargs : dict) (c : store) (obj : pyval) :
  kwargs !! "child_object" = Some obj →
  get_detail self request kwargs c
  = Run (if is_none obj then Ret HttpNotFound
         else serialize self request obj) c [].
Proof.
  intros Hchild. unfold get_detail. rewrite Hchild.
  unfold mbind, M_bind, bind, try_except, serialize.
  destruct (is_none obj); [reflexivity |]. cbn.
  unfold lift, ret, raise.
  destruct (full_dehydrate self _) as [b |]; cbn; [| reflexivity].
  destruct (alter_detail_data_to_serialize self request b) as [b' |];
    cbn; [| reflexivity].
  by destruct (create_response self request b').
Qed.

Lemma get_detail_of_child_object_witness :
  get_detail (Demo.installation [] false) Demo.get
    (<["child_object" := Demo.entry 7]> (Demo.nested_kwargs 1)) ∅
  = Run (Ret (HttpResponse 200 (Bundle (Demo.entry 7) ∅ Demo.get))) ∅ [].
Proof.
  exact (get_detail_of_child_object (Demo.installation [] false) Demo.get
           (<["child_object" := Demo.entry 7]> (Demo.nested_kwargs 1)) ∅
           (Demo.entry 7) eq_refl).
Defined.

(** X22: a lookup value of the wrong type gives no response from
    [get_detail]: on a lookup the cache does not answer, the [ValueError]
    of the filter call leaves [get_detail] as the exception [NotFound],
    where no match gives the response [HttpNotFound]. *)
Theorem get_detail_mismatched_value (self : Framework) (request : request)
    (kwargs : dict) (c : store) (objects : queryset) :
  let bundle := build_bundle self VNone request in
  kwargs !! "child_object" = None →
  kwargs !! "bundle" = None →
  cache_get self c
    (generate_cache_key self "detail"
       (real_remove_api_resource_names kwargs)) = VNone →
  get_object_list self (b_request bundle) = Ret objects →
  qs_filter self objects (real_remove_api_resource_names kwargs)
  = Raise ValueError →
  result (get_detail self request kwargs c) = Raise NotFound.
Proof.
  intros bundle Hchild Hbundle Hmiss Hlist Hfilter.
  rewrite get_detail_on_miss by assumption. fold bundle.
  rewrite obj_get_result, Hlist. simpl. by rewrite Hfilter.
Qed.

Lemma get_detail_mismatched_value_witness :
  result (get_detail (Demo.installation [Demo.entry 1] true) Demo.get
            {[ "pk" := VStr "one" ]} ∅)
  = Raise NotFound.
Proof.
  exact (get_detail_mismatched_value (Demo.installation [Demo.entry 1] true)
           Demo.get {[ "pk" := VStr "one" ]} ∅ [Demo.entry 1]
           eq_refl eq_refl eq_refl eq_refl eq_refl).
Defined.

(** ** The wrappers of the base implementations *)

(** X23: each of [obj_create], [obj_update], [obj_delete],
    [obj_delete_list] and [obj_delete_list_for_update] is one call of the
    base implementation with the stripped kwargs: its outcome is the
    outcome of that call and the cache is not touched. *)
Theorem wrappers_delegate_once (self : Framework) (bundle : bundle)
    (skip_errors : bool) (kwargs : dict) (c : store) :
  let stripped := real_remove_api_resource_names kwargs in
  obj_create self bundle kwargs c
  = Run (super_obj_create self bundle stripped) c
        [CallSuper "obj_create" stripped]
  ∧ obj_update self bundle skip_errors kwargs c
    = Run (super_obj_update self bundle skip_errors stripped) c
          [CallSuper "obj_update" stripped]
  ∧ obj_delete self bundle kwargs c
    = Run (super_obj_delete self bundle stripped) c
          [CallSuper "obj_delete" stripped]
  ∧ obj_delete_list self bundle kwargs c
    = Run (super_obj_delete_list self bundle stripped) c
          [CallSuper "obj_delete_list" stripped]
  ∧ obj_delete_list_for_update self bundle kwargs c
    = Run (super_obj_delete_list_for_update self bundle stripped) c
          [CallSuper "obj_delete_list_for_update" stripped].
Proof.
  intros stripped.
  unfold obj_create, obj_update, obj_delete, obj_delete_list,
    obj_delete_list_for_update.
  fold stripped. run_unfold.
  destruct (super_obj_create self bundle stripped),
    (super_obj_update self bundle skip_errors stripped),
    (super_obj_delete self bundle stripped),
    (super_obj_delete_list self bundle stripped),
    (super_obj_delete_list_for_update self bundle stripped); done.
Qed.

(** X24: the keys that name the parent make no difference to the
    wrappers and to the detail lookup: called with the kwargs of a nested
    dispatch they do what they do with the kwargs alone. *)
Theorem parent_keys_make_no_difference (self : Framework) (bundle : bundle)
    (skip_errors : bool) (kwargs : dict) (c : store)
    (nested_name parent_resource parent_object : pyval) :
  let nested :=
    nested_bookkeeping nested_name parent_resource parent_object kwargs in
  obj_create self bundle nested c = obj_create self bundle kwargs c
  ∧ obj_update self bundle skip_errors nested c
    = obj_update self bundle skip_errors kwargs c
  ∧ obj_delete self bundle nested c = obj_delete self bundle kwargs c
  ∧ obj_delete_list self bundle nested c
    = obj_delete_list self bundle kwargs c
  ∧ obj_get self bundle nested c = obj_get self bundle kwargs c.
Proof.
  intros nested.
  assert (Hsame : real_remove_api_resource_names nested
                  = real_remove_api_resource_names kwargs).
  { unfold nested, nested_bookkeeping.
    rewrite !real_remove_insert; [reflexivity | ..];
      apply removed_keys_elem; tauto. }
  unfold obj_create, obj_update, obj_delete, obj_delete_list, obj_get.
  by rewrite Hsame.
Qed.

(** ** Routes under the detail of a resource *)

(** X25: the detail route, every nested route and the group of detail
    actions start with the same pattern: the resource's name and its
    detail identifier matched by the resource's identifier pattern. *)
Theorem detail_routes_share_prefix (self : Framework) :
  let detail_prefix :=
    ("^(?P<resource_name>" ++ resource_name self ++ ")/(?P<"
     ++ detail_uri_name self ++ ">"
     ++ self_get_detail_uri_name_regex self ++ ")")%string in
  Forall (λ u, String.prefix detail_prefix (url_regex u) = true)
         (drop 3 (base_urls self) ++ nested_urls self
          ++ detail_actions_urlpatterns self).
Proof.
  intros detail_prefix.
  assert (Hstart : ∀ rest : string,
             String.prefix detail_prefix
               ("^(?P<resource_name>" ++ resource_name self ++ ")/(?P<"
                ++ detail_uri_name self ++ ">"
                ++ self_get_detail_uri_name_regex self
                ++ String ")" rest)%string = true).
  { intros rest. unfold detail_prefix. rewrite !prefix_append. simpl.
    destruct (Ascii.ascii_dec ")" ")"); [by destruct rest | congruence]. }
  rewrite !Forall_app. split; [| split].
  - simpl. apply Forall_cons_2; [| apply Forall_nil_2]. simpl.
    exact (Hstart (trailing_slash self ++ "$")%string).
  - apply Forall_forall. intros u Hu. unfold nested_urls in Hu.
    apply list_elem_of_fmap in Hu as (n & -> & _). simpl.
    apply (Hstart ("/(?P<nested_name>" ++ _)%string).
  - unfold detail_actions_urlpatterns.
    destruct (self_detail_actions self); constructor; [| constructor].
    simpl. exact (Hstart (trailing_slash self)).
Qed.

(** ** What the child of a nested list sees of the parent's kwargs *)

(** X26: of the kwargs of a nested dispatch to a list, the child's
    lookup keeps, after stripping, the parent's kwargs without the seven
    keys and without the parent's identifier. *)
Theorem nested_list_kwargs_after_stripping (self : Framework)
    (kwargs : dict) (n : string) (obj manager : pyval) :
  real_remove_api_resource_names
    (delete (detail_uri_name self)
       (<["related_manager" := manager]>
          (nested_bookkeeping (VStr n) (VResource (resource_name self)) obj
             (delete "nested_name" kwargs))))
  = delete (detail_uri_name self) (real_remove_api_resource_names kwargs).
Proof.
  apply map_eq. intros k.
  rewrite real_remove_lookup, !lookup_delete, real_remove_lookup.
  unfold nested_bookkeeping.
  case_bool_decide as Hk; [by case_decide |].
  case_decide; [reflexivity |].
  rewrite removed_keys_elem in Hk.
  rewrite !lookup_insert_ne, lookup_delete_ne
    by (intros <-; apply Hk; tauto).
  reflexivity.
Qed.
